(** * array2d: the grid container of data_structures.hpp

    A shallow embedding of the class template [array2d<T>] and of the
    operations declared in [src/data_structures.hpp], followed by the
    properties of the container that the specification states.

    Conventions of the embedding.
    - [std::vector< std::vector<T> >] is a [list (list T)]: the outer list
      holds the rows, [data[y][x]] is element [x] of row [y].
    - C++ integers are [Z]; every conversion that can change a value
      (to [unsigned long long], from [long] to [int], from [int] to the
      element type) is written out.
    - An access outside a vector is undefined behaviour in C++; here it is
      the error [UndefinedBehaviour], so that every operation is total.
    - [double] is the kernel's binary64 type.
    - A member that does not compile for an element type succeeds on no
      call in the model: it gives the error [IllFormed].
    - Memory is unbounded: [std::bad_alloc] is not modelled. *)

From Stdlib Require Import ZArith Lia Bool List.
From Stdlib Require Import PrimFloat SpecFloat FloatOps.
From stdpp Require Import base list.

Local Open Scope Z_scope.

(** ** Results of operations *)

Inductive error : Type :=
| UndefinedBehaviour   (* out-of-range [operator[]], signed overflow *)
| LengthError          (* [std::length_error] thrown by [std::vector] *)
| NoDefinition         (* member declared, never defined for this [T] *)
| IllFormed.           (* member that does not compile for this [T] *)

Inductive result (A : Type) : Type :=
| Ok (a : A)
| Err (e : error).

Arguments Ok {A} a.
Arguments Err {A} e.

Definition rbind {A B : Type} (r : result A) (k : A -> result B) : result B :=
  match r with
  | Ok a => k a
  | Err e => Err e
  end.

Notation "x <- r ;; k" := (rbind r (fun x => k))
  (at level 100, r at next level, right associativity).

(** Operations that write to [stderr] return the figures they printed
    together with their result. *)
Definition io (A : Type) : Type := (list Z * result A)%type.

Definition printed {A : Type} (m : io A) : list Z := fst m.
Definition outcome {A : Type} (m : io A) : result A := snd m.

(** ** Machine integers (LP64) *)

Definition INT_MAX : Z := 2147483647.
Definition LONG_MAX : Z := 9223372036854775807.

(** Conversion to an unsigned type of [bits] bits. *)
Definition to_unsigned (bits z : Z) : Z := z mod 2 ^ bits.

(** Conversion to a signed type of [bits] bits (two's complement). *)
Definition to_signed (bits z : Z) : Z :=
  (z + 2 ^ (bits - 1)) mod 2 ^ bits - 2 ^ (bits - 1).

Definition to_ull (z : Z) : Z := to_unsigned 64 z.
Definition to_int (z : Z) : Z := to_signed 32 z.

(** Multiplication of two [long]s; signed overflow is undefined. *)
Definition long_mul (a b : Z) : result Z :=
  let p := a * b in
  if (- LONG_MAX - 1 <=? p) && (p <=? LONG_MAX) then Ok p
  else Err UndefinedBehaviour.

(** ** Element types *)

Inductive ctype : Type :=
| c_double | c_float | c_char | c_signed_char | c_bool | c_unsigned_int | c_int.

Definition sizeof (t : ctype) : Z :=
  match t with
  | c_double => 8
  | c_float | c_unsigned_int | c_int => 4
  | c_char | c_signed_char | c_bool => 1
  end.

(** [std::vector<bool>] is the packed specialisation: [operator[]] gives
    a proxy object (or, on a const vector, a [bool] by value), never a
    reference to an element. *)
Definition packed (t : ctype) : bool :=
  match t with
  | c_bool => true
  | c_double | c_float | c_char | c_signed_char | c_unsigned_int | c_int => false
  end.

(** What the template uses of its parameter [T]: its identity (explicit
    specialisations are chosen by it), [T()], the conversion from [int]
    (for [no_data=-1]) and [operator!=]. *)
Class Element (T : Type) : Type := {
  ctype_of : ctype;
  value_init : T;
  of_int : Z -> T;
  ne : T -> T -> bool
}.

Definition int_elt : Element Z :=
  {| ctype_of := c_int; value_init := 0;
     of_int := fun z => z;
     ne := fun a b => negb (a =? b) |}.

Definition uint_elt : Element Z :=
  {| ctype_of := c_unsigned_int; value_init := 0;
     of_int := to_unsigned 32;
     ne := fun a b => negb (a =? b) |}.

Definition schar_elt : Element Z :=
  {| ctype_of := c_signed_char; value_init := 0;
     of_int := to_signed 8;
     ne := fun a b => negb (a =? b) |}.

Definition char_elt : Element Z :=
  {| ctype_of := c_char; value_init := 0;
     of_int := to_signed 8;
     ne := fun a b => negb (a =? b) |}.

Definition bool_elt : Element bool :=
  {| ctype_of := c_bool; value_init := false;
     of_int := fun z => negb (z =? 0);
     ne := xorb |}.

(** Binary64 value of an [int]: exact, every [int] has fewer than 53 bits. *)
Definition double_of_int (z : Z) : float :=
  SF2Prim (binary_normalize 53 1024 z 0 false).

Definition double_elt : Element float :=
  {| ctype_of := c_double; value_init := 0%float;
     of_int := double_of_int;
     ne := fun a b => negb (PrimFloat.eqb a b) |}.

(** Binary32 values are [spec_float]s of precision 24. *)
Definition float_elt : Element spec_float :=
  {| ctype_of := c_float; value_init := S754_zero false;
     of_int := fun z => binary_normalize 24 128 z 0 false;
     ne := fun a b => negb (SFeqb a b) |}.

(** ** The class array2d *)

Record array2d (T : Type) : Type := mk_array2d {
  data : list (list T);
  cellsize : float;
  xllcorner : float;
  yllcorner : float;
  data_cells : Z;
  no_data : T
}.

Arguments mk_array2d {T}.
Arguments data {T}.
Arguments cellsize {T}.
Arguments xllcorner {T}.
Arguments yllcorner {T}.
Arguments data_cells {T}.
Arguments no_data {T}.

Definition with_data {T : Type} (g : array2d T) (d : list (list T)) : array2d T :=
  mk_array2d d (cellsize g) (xllcorner g) (yllcorner g) (data_cells g) (no_data g).

Section Grid.
Context {T : Type} {E : Element T}.

(** [long width() const {return data[0].size();}] *)
Definition width (g : array2d T) : result Z :=
  match data g !! 0%nat with
  | Some row => Ok (Z.of_nat (length row))
  | None => Err UndefinedBehaviour
  end.

(** [long height() const {return data.size();}] *)
Definition height (g : array2d T) : Z := Z.of_nat (length (data g)).

(** [array2d<T>::array2d()] *)
Definition array2d_new : array2d T :=
  mk_array2d [] (-1)%float (-1)%float (-1)%float (-1) (of_int (-1)).

(** [void clear() {data.clear();}] *)
Definition clear (g : array2d T) : array2d T := with_data g [].

(** [data[y][x]]: the content of the cell, where there is one. *)
Definition at_ (g : array2d T) (x y : Z) : result T :=
  if (x <? 0) || (y <? 0) then Err UndefinedBehaviour
  else match data g !! Z.to_nat y with
       | Some row => match row !! Z.to_nat x with
                     | Some v => Ok v
                     | None => Err UndefinedBehaviour
                     end
       | None => Err UndefinedBehaviour
       end.

(** [data[y][x]=val] *)
Definition write_cell (g : array2d T) (x y : Z) (val : T) : result (array2d T) :=
  _ <- at_ g x y ;;
  Ok (with_data g (alter (fun row => <[Z.to_nat x := val]> row) (Z.to_nat y) (data g))).

(** [T& operator()(int x, int y) {return data[y][x];}] in
    [operator()(x,y)=val]. For a packed vector the [return] does not
    compile: a proxy does not bind to [T&]. *)
Definition set_at (g : array2d T) (x y : Z) (val : T) : result (array2d T) :=
  if packed ctype_of then Err IllFormed else write_cell g x y val.

(** [const T& operator()(int x, int y) const {return data[y][x];}], and
    the value read through the reference it returns. For a packed vector
    the reference is to a temporary [bool] that is gone by then. *)
Definition get (g : array2d T) (x y : Z) : result T :=
  v <- at_ g x y ;;
  if packed ctype_of then Err UndefinedBehaviour else Ok v.

(** [x>=0 && y>=0 && x<width() && y<height()]; [&&] evaluates its right
    operand only when the left one is true. *)
Definition in_grid (g : array2d T) (x y : Z) : result bool :=
  if negb (0 <=? x) then Ok false
  else if negb (0 <=? y) then Ok false
  else w <- width g ;;
       if negb (x <? w) then Ok false
       else Ok (y <? height g).

(** [x>=1 && y>=1 && x<width()-1 && y<height()-1] *)
Definition interior_grid (g : array2d T) (x y : Z) : result bool :=
  if negb (1 <=? x) then Ok false
  else if negb (1 <=? y) then Ok false
  else w <- width g ;;
       if negb (x <? w - 1) then Ok false
       else Ok (y <? height g - 1).

(** [x==0 || y==0 || x==width()-1 || y==height()-1] *)
Definition edge_grid (g : array2d T) (x y : Z) : result bool :=
  if x =? 0 then Ok true
  else if y =? 0 then Ok true
  else w <- width g ;;
       if x =? w - 1 then Ok true
       else Ok (y =? height g - 1).

(** The figure printed by [resize]:
    [(unsigned long long)width * (unsigned long long)height *
     (unsigned long long)sizeof(T) / 1024 / 1024]. *)
Definition approx_ram (w h : Z) : Z :=
  to_ull (to_ull (to_ull w * to_ull h) * to_ull (sizeof ctype_of)) / 1024 / 1024.

(** [data.resize(height, std::vector<T>(width))]: rows beyond [height] are
    dropped, missing rows are copies of a row of [width] value-initialised
    elements, rows that stay are untouched. A negative size, converted to
    [size_t], exceeds [max_size()]. *)
Definition vector_resize (w h : Z) (d : list (list T)) : result (list (list T)) :=
  if w <? 0 then Err LengthError
  else if h <? 0 then Err LengthError
  else Ok (take (Z.to_nat h) d
           ++ replicate (Z.to_nat h - length d) (replicate (Z.to_nat w) value_init)).

(** [void array2d<T>::resize(int width, int height)] *)
Definition resize (w h : Z) (g : array2d T) : io (array2d T) :=
  ([approx_ram w h],
   d <- vector_resize w h (data g) ;; Ok (with_data g d)).

End Grid.

Section CrossType.
Context {T U : Type} {ET : Element T}.

(** The implicit conversion from [U] to [T] used by
    [no_data=copyfrom.no_data]; [None] where C++ leaves it undefined. *)
Variable conv : U -> option T.

(** [template<class U> void array2d<T>::copyprops(const array2d<U> &copyfrom)];
    [resize] takes [int]s, [width()] and [height()] return [long]s. *)
Definition copyprops (copyfrom : array2d U) (this : array2d T) : io (array2d T) :=
  match conv (no_data copyfrom) with
  | Some n =>
      let this' :=
        mk_array2d (data this) (cellsize copyfrom) (xllcorner copyfrom)
          (yllcorner copyfrom) (data_cells copyfrom) n in
      match width copyfrom with
      | Ok w => resize (to_int w) (to_int (height copyfrom)) this'
      | Err e => ([], Err e)
      end
  | None => ([], Err UndefinedBehaviour)
  end.

(** [template<class U> array2d<T>::array2d(const array2d<U> &copyfrom)]:
    [*this=array2d(); copyprops(copyfrom);] *)
Definition array2d_from (copyfrom : array2d U) : io (array2d T) :=
  copyprops copyfrom array2d_new.

End CrossType.

(** ** Loops *)

(** [for(int i=i0; i<i0+n; i++) body], threading the state; an error in
    the body ends the loop. *)
Fixpoint for_ {S : Type} (n : nat) (i : Z) (body : Z -> S -> result S) (s : S)
  : result S :=
  match n with
  | O => Ok s
  | Datatypes.S n' =>
      match body i s with
      | Ok s' => for_ n' (i + 1) body s'
      | Err e => Err e
      end
  end.

(** The same loop for a body that may leave it early: [true] as soon as
    the body says so, [false] when the loop runs to its end. *)
Fixpoint any_ (n : nat) (i : Z) (body : Z -> result bool) : result bool :=
  match n with
  | O => Ok false
  | Datatypes.S n' =>
      match body i with
      | Ok true => Ok true
      | Ok false => any_ n' (i + 1) body
      | Err e => Err e
      end
  end.

Section GridOps.
Context {T : Type} {E : Element T}.

(** [void array2d<T>::init(T val)]: for every [x<width()], for every
    [y<height()], [operator()(x,y)=val]. The writes leave the shape of
    [data] as it is, so both bounds are those found on entry. For a
    packed vector the body does not compile, so no call of [init]
    succeeds, whatever the grid: past the first [width()], which fails
    as ever on a grid without rows, it is [IllFormed]. *)
Definition init (val : T) (g : array2d T) : result (array2d T) :=
  w <- width g ;;
  if packed ctype_of then Err IllFormed
  else
    for_ (Z.to_nat w) 0
      (fun x gx =>
         for_ (Z.to_nat (height gx)) 0 (fun y gy => set_at gy x y val) gx)
      g.

(** The explicit specialisations of [estimated_output_size]: [float],
    [char], [bool] and [unsigned int]. The member is declared for every
    [T] and defined for these four only. *)
Definition multiplier (t : ctype) : option Z :=
  match t with
  | c_float => Some 9
  | c_char => Some 4
  | c_bool => Some 2
  | c_unsigned_int => Some 9
  | c_double | c_signed_char | c_int => None
  end.

(** [return m*this->width()*this->height();] in [long] arithmetic. *)
Definition estimated_output_size (g : array2d T) : result Z :=
  match multiplier ctype_of with
  | Some m =>
      w <- width g ;;
      p <- long_mul m w ;;
      long_mul p (height g)
  | None => Err NoDefinition
  end.

(** [bool array2d<T>::operator==(const array2d<T> &other) const] *)
Definition array2d_eq (this other : array2d T) : result bool :=
  w <- width this ;;
  w' <- width other ;;
  if negb (w =? w') then Ok false
  else if negb (height this =? height other) then Ok false
  else
    differ <- any_ (Z.to_nat w) 0
                (fun x =>
                   any_ (Z.to_nat (height this)) 0
                     (fun y =>
                        a <- get this x y ;;
                        b <- get other x y ;;
                        Ok (ne a b))) ;;
    Ok (negb differ).

End GridOps.

(** The canonical instantiations, each as the element type it fixes. *)
Definition double_2d : Element float := double_elt.      (* array2d<double> *)
Definition float_2d : Element spec_float := float_elt.   (* array2d<float> *)
Definition char_2d : Element Z := schar_elt.             (* array2d<signed char> *)
Definition bool_2d : Element bool := bool_elt.           (* array2d<bool> *)
Definition uint_2d : Element Z := uint_elt.              (* array2d<unsigned int> *)
Definition int_2d : Element Z := int_elt.                (* array2d<int> *)

(** ** Conversions between the element types *)

(** The values of each element type. *)
Definition carrier (t : ctype) : Type :=
  match t with
  | c_double => float
  | c_float => spec_float
  | c_bool => bool
  | c_char | c_signed_char | c_unsigned_int | c_int => Z
  end.

Definition elt (t : ctype) : Element (carrier t) :=
  match t as t0 return Element (carrier t0) with
  | c_double => double_elt
  | c_float => float_elt
  | c_char => char_elt
  | c_signed_char => schar_elt
  | c_bool => bool_elt
  | c_unsigned_int => uint_elt
  | c_int => int_elt
  end.

(** A floating value to an integer type with the values [lo..hi]: the
    fractional part is dropped; undefined when what is left is not a value
    of the type, and for infinities and NaN. *)
Definition truncate_to (lo hi : Z) (f : spec_float) : option Z :=
  match f with
  | S754_zero _ => Some 0
  | S754_finite s m e =>
      let a := if 0 <=? e then Z.pos m * 2 ^ e else Z.pos m / 2 ^ (- e) in
      let z := if s then - a else a in
      if (lo <=? z) && (z <=? hi) then Some z else None
  | S754_infinity _ | S754_nan => None
  end.

(** A floating value to [bool]: false for a zero, true otherwise. *)
Definition nonzero (f : spec_float) : bool :=
  match f with
  | S754_zero _ => false
  | S754_finite _ _ _ | S754_infinity _ | S754_nan => true
  end.

(** [m*2^e > m'*2^e'] *)
Definition exceeds (m : positive) (e : Z) (m' e' : Z) : bool :=
  if e' <=? e then m' <? Z.pos m * 2 ^ (e - e')
  else m' * 2 ^ (e' - e) <? Z.pos m.

(** A [double] to [float]: rounded to the nearest [float]; undefined for
    a finite value beyond [FLT_MAX] = (2^24-1)*2^104. *)
Definition float_of_double (f : spec_float) : option spec_float :=
  match f with
  | S754_finite s m e =>
      if exceeds m e 16777215 104 then None
      else Some (binary_normalize 24 128 (if s then Z.neg m else Z.pos m) e s)
  | S754_zero _ | S754_infinity _ | S754_nan => Some f
  end.

(** The implicit conversion of a value of the element type [u] to the
    element type [t], as in [no_data=copyfrom.no_data] with
    [copyfrom] an [array2d<u>] and [no_data] a [t]. [None] where the
    conversion is undefined. Between integer types the value is reduced
    modulo 2^bits; anything but zero becomes [true]. *)
Definition convert (u t : ctype) : carrier u -> option (carrier t) :=
  match u as u0 return carrier u0 -> option (carrier t) with
  | c_double => fun x =>
      match t as t0 return option (carrier t0) with
      | c_double => Some x
      | c_float => float_of_double (Prim2SF x)
      | c_char => truncate_to (-128) 127 (Prim2SF x)
      | c_signed_char => truncate_to (-128) 127 (Prim2SF x)
      | c_bool => Some (nonzero (Prim2SF x))
      | c_unsigned_int => truncate_to 0 4294967295 (Prim2SF x)
      | c_int => truncate_to (-2147483648) 2147483647 (Prim2SF x)
      end
  | c_float => fun x =>
      match t as t0 return option (carrier t0) with
      | c_double => Some (SF2Prim x)
      | c_float => Some x
      | c_char => truncate_to (-128) 127 x
      | c_signed_char => truncate_to (-128) 127 x
      | c_bool => Some (nonzero x)
      | c_unsigned_int => truncate_to 0 4294967295 x
      | c_int => truncate_to (-2147483648) 2147483647 x
      end
  | c_char => fun x =>
      match t as t0 return option (carrier t0) with
      | c_double => Some (double_of_int x)
      | c_float => Some (binary_normalize 24 128 x 0 false)
      | c_char => Some x
      | c_signed_char => Some (to_signed 8 x)
      | c_bool => Some (negb (x =? 0))
      | c_unsigned_int => Some (to_unsigned 32 x)
      | c_int => Some (to_signed 32 x)
      end
  | c_signed_char => fun x =>
      match t as t0 return option (carrier t0) with
      | c_double => Some (double_of_int x)
      | c_float => Some (binary_normalize 24 128 x 0 false)
      | c_char => Some (to_signed 8 x)
      | c_signed_char => Some x
      | c_bool => Some (negb (x =? 0))
      | c_unsigned_int => Some (to_unsigned 32 x)
      | c_int => Some (to_signed 32 x)
      end
  | c_bool => fun x =>
      match t as t0 return option (carrier t0) with
      | c_double => Some (double_of_int (Z.b2z x))
      | c_float => Some (binary_normalize 24 128 (Z.b2z x) 0 false)
      | c_char => Some (Z.b2z x)
      | c_signed_char => Some (Z.b2z x)
      | c_bool => Some x
      | c_unsigned_int => Some (Z.b2z x)
      | c_int => Some (Z.b2z x)
      end
  | c_unsigned_int => fun x =>
      match t as t0 return option (carrier t0) with
      | c_double => Some (double_of_int x)
      | c_float => Some (binary_normalize 24 128 x 0 false)
      | c_char => Some (to_signed 8 x)
      | c_signed_char => Some (to_signed 8 x)
      | c_bool => Some (negb (x =? 0))
      | c_unsigned_int => Some x
      | c_int => Some (to_signed 32 x)
      end
  | c_int => fun x =>
      match t as t0 return option (carrier t0) with
      | c_double => Some (double_of_int x)
      | c_float => Some (binary_normalize 24 128 x 0 false)
      | c_char => Some (to_signed 8 x)
      | c_signed_char => Some (to_signed 8 x)
      | c_bool => Some (negb (x =? 0))
      | c_unsigned_int => Some (to_unsigned 32 x)
      | c_int => Some x
      end
  end.



(** ** Shapes of grids *)

(** Every row is as long as row 0. *)
Definition rectangular {T : Type} (g : array2d T) : bool :=
  match data g with
  | [] => true
  | row :: rows => forallb (fun r => Nat.eqb (length r) (length row)) rows
  end.

(** The lengths of the rows, first row first. *)
Definition shape {T : Type} (g : array2d T) : list nat := length <$> data g.

(** The height and every row length fit an [int]: [resize], the only
    member that makes rows, takes [int]s. *)
Definition int_sized {T : Type} (g : array2d T) : bool :=
  (Z.of_nat (length (shape g)) <=? INT_MAX)
  && forallb (fun n => Z.of_nat n <=? INT_MAX) (shape g).

(** ** Grids used as examples *)

(** A 1x1 grid of [int]s holding 7. *)
Definition grid_1x1 : array2d Z := with_data (@array2d_new Z int_2d) [[7]].

(** A [w]x[h] grid every cell of which holds [v]. *)
Definition filled {T : Type} {E : Element T} (w h : nat) (v : T) : array2d T :=
  with_data array2d_new (replicate h (replicate w v)).

(** A 5x5 grid of [int]s. *)
Definition grid_5x5 : array2d Z := @filled Z int_2d 5 5 0.


(** ** Counting cells *)

(** A predicate of the class answered "true". *)
Definition holds (r : result bool) : bool :=
  match r with
  | Ok true => true
  | _ => false
  end.

(** The coordinates [(x,y)] with [0<=x<w] and [0<=y<h]. *)
Definition coordinates (w h : nat) : list (Z * Z) :=
  List.flat_map
    (fun x => List.map (fun y => (Z.of_nat x, Z.of_nat y)) (List.seq 0 h))
    (List.seq 0 w).

(** How many of the coordinates [cs] satisfy the predicate [p]. *)
Definition count_cells (p : Z -> Z -> result bool) (cs : list (Z * Z)) : nat :=
  length (List.filter (fun c => holds (p (fst c) (snd c))) cs).

(** ** Metadata and the grids the interface builds *)

(** The five metadata fields agree. *)
Definition same_metadata {T : Type} (g' g : array2d T) : Prop :=
  cellsize g' = cellsize g /\ xllcorner g' = xllcorner g /\
  yllcorner g' = yllcorner g /\ data_cells g' = data_cells g /\
  no_data g' = no_data g.

(** The arguments an [int] parameter can receive. *)
Definition is_int (z : Z) : Prop := - INT_MAX - 1 <= z <= INT_MAX.

(** The grids that the public members make: [data] is private, so rows
    come from the constructors, [resize], [clear], [operator()], [init]
    and [copyprops] only; the metadata fields are public and can hold
    anything. *)
Inductive built : forall (T : Type), Element T -> array2d T -> Prop :=
| built_new (T : Type) (E : Element T) :
    built T E (@array2d_new T E)
| built_resize (T : Type) (E : Element T) (g g' : array2d T) (w h : Z) :
    built T E g -> is_int w -> is_int h ->
    outcome (resize w h g) = Ok g' -> built T E g'
| built_clear (T : Type) (E : Element T) (g : array2d T) :
    built T E g -> built T E (clear g)
| built_set_at (T : Type) (E : Element T) (g g' : array2d T) (x y : Z) (v : T) :
    built T E g -> set_at g x y v = Ok g' -> built T E g'
| built_init (T : Type) (E : Element T) (g g' : array2d T) (v : T) :
    built T E g -> init v g = Ok g' -> built T E g'
| built_copyprops (T U : Type) (ET : Element T) (EU : Element U)
    (conv : U -> option T) (S : array2d U) (D D' : array2d T) :
    built U EU S -> built T ET D ->
    outcome (copyprops conv S D) = Ok D' -> built T ET D'
| built_metadata (T : Type) (E : Element T) (g : array2d T)
    (c x y : float) (d : Z) (n : T) :
    built T E g -> built T E (mk_array2d (data g) c x y d n).

(** * Properties *)

(** ** Dimensions *)

Section Dimensions.
Context {T : Type}.
Implicit Types (g : array2d T) (d : list (list T)).

Lemma height_nonneg g : 0 <= height g.
Proof. unfold height. lia. Qed.

Lemma width_cons g row rows :
  data g = row :: rows -> width g = Ok (Z.of_nat (length row)).
Proof. intros Hd. unfold width. now rewrite Hd. Qed.

Lemma width_nil g : data g = [] -> width g = Err UndefinedBehaviour.
Proof. intros Hd. unfold width. now rewrite Hd. Qed.

Lemma height_zero_data g : height g = 0 -> data g = [].
Proof.
  unfold height. destruct (data g); [reflexivity | simpl; lia].
Qed.

Lemma width_nonneg g w : width g = Ok w -> 0 <= w.
Proof.
  unfold width. destruct (data g !! 0%nat); intros [=]. lia.
Qed.

End Dimensions.

(** C10. [width()] reads the length of row 0: on a grid with at least one
    row that row exists and [width()] is its length; on a grid without
    rows, such as a default-constructed one or any grid after [clear()],
    the access to row 0 is out of range. *)
Theorem width_reads_row_0 :
  forall (T : Type) (E : Element T) (g : array2d T),
    (0 < height g ->
       exists row, data g !! 0%nat = Some row /\
                   width g = Ok (Z.of_nat (length row))) /\
    (height g = 0 ->
       data g !! 0%nat = None /\ width g = Err UndefinedBehaviour) /\
    width (@array2d_new T E) = Err UndefinedBehaviour /\
    width (clear g) = Err UndefinedBehaviour.
Proof.
  intros T E g. split; [|split; [|split; reflexivity]].
  - unfold height. destruct (data g) as [|row rows] eqn:Hd; simpl; [lia|].
    intros _. exists row. split; [reflexivity|]. now apply width_cons with rows.
  - intros Hrows. apply height_zero_data in Hrows. split.
    + now rewrite Hrows.
    + now apply width_nil.
Qed.

(** C7. A default-constructed grid has no rows, so [height()] is 0 and
    [width()], which reads row 0, has no row to read; the metadata fields
    hold -1, [no_data] as -1 converted to the element type. *)
Theorem array2d_new_fields :
  forall (T : Type) (E : Element T),
    let g := @array2d_new T E in
    width g = Err UndefinedBehaviour /\
    height g = 0 /\
    cellsize g = (-1)%float /\
    xllcorner g = (-1)%float /\
    yllcorner g = (-1)%float /\
    data_cells g = -1 /\
    no_data g = of_int (-1).
Proof. intros T E g. repeat split. Qed.

(** [no_data] of a default-constructed grid, for each canonical
    instantiation. *)
Lemma array2d_new_no_data :
  no_data (@array2d_new _ double_2d) = (-1)%float /\
  no_data (@array2d_new _ float_2d) = S754_finite true 8388608 (-23) /\
  no_data (@array2d_new _ char_2d) = -1 /\
  no_data (@array2d_new _ bool_2d) = true /\
  no_data (@array2d_new _ uint_2d) = 4294967295 /\
  no_data (@array2d_new _ int_2d) = -1.
Proof. repeat split; vm_compute; reflexivity. Qed.

(** C8. [clear()] leaves a grid without rows: [height()] is 0, [width()]
    has no row 0 to read, and the five metadata fields are those of the
    grid before the call. *)
Theorem clear_fields :
  forall (T : Type) (g : array2d T),
    width (clear g) = Err UndefinedBehaviour /\
    height (clear g) = 0 /\
    cellsize (clear g) = cellsize g /\
    xllcorner (clear g) = xllcorner g /\
    yllcorner (clear g) = yllcorner g /\
    data_cells (clear g) = data_cells g /\
    no_data (clear g) = no_data g.
Proof. intros T g. repeat split. Qed.

(** ** resize *)

Section Resize.
Context {T : Type} {E : Element T}.
Implicit Types (g : array2d T) (d : list (list T)).

Lemma vector_resize_ok w h d :
  0 <= w -> 0 <= h ->
  vector_resize w h d =
    Ok (take (Z.to_nat h) d
        ++ replicate (Z.to_nat h - length d) (replicate (Z.to_nat w) value_init)).
Proof.
  intros Hw Hh. unfold vector_resize.
  destruct (Z.ltb_spec w 0); [lia|]. destruct (Z.ltb_spec h 0); [lia|]. reflexivity.
Qed.

Lemma vector_resize_negative w h d :
  w < 0 \/ h < 0 -> vector_resize w h d = Err LengthError.
Proof.
  intros Hneg. unfold vector_resize.
  destruct (Z.ltb_spec w 0); [reflexivity|].
  destruct (Z.ltb_spec h 0); [reflexivity|lia].
Qed.

Lemma vector_resize_length w h d d' :
  vector_resize w h d = Ok d' -> Z.of_nat (length d') = h.
Proof.
  unfold vector_resize.
  destruct (Z.ltb_spec w 0); [discriminate|].
  destruct (Z.ltb_spec h 0); [discriminate|].
  intros [= <-]. rewrite length_app, length_take, length_replicate. lia.
Qed.

(** After a [resize] that succeeds, [height()] is the height asked for. *)
Lemma resize_height w h g g' :
  outcome (resize w h g) = Ok g' -> height g' = h.
Proof.
  unfold resize, outcome, height; simpl.
  destruct (vector_resize w h (data g)) as [d'|] eqn:Hd; simpl; [|discriminate].
  intros [= <-]. simpl. now apply vector_resize_length in Hd.
Qed.

(** [resize] touches no metadata field. *)
Lemma resize_metadata w h g g' :
  outcome (resize w h g) = Ok g' ->
  cellsize g' = cellsize g /\ xllcorner g' = xllcorner g /\
  yllcorner g' = yllcorner g /\ data_cells g' = data_cells g /\
  no_data g' = no_data g.
Proof.
  unfold resize, outcome; simpl.
  destruct (vector_resize w h (data g)); simpl; [|discriminate].
  intros [= <-]. repeat split.
Qed.

(** On a grid without rows, [resize] builds [h] rows of [w] elements. *)
Lemma resize_empty w h g :
  height g = 0 -> 0 <= w -> 0 <= h ->
  outcome (resize w h g) =
    Ok (with_data g (replicate (Z.to_nat h) (replicate (Z.to_nat w) value_init))).
Proof.
  intros Hg Hw Hh. apply height_zero_data in Hg.
  unfold resize, outcome; simpl. rewrite vector_resize_ok by assumption.
  rewrite Hg. simpl. rewrite take_nil, Nat.sub_0_r. reflexivity.
Qed.

Lemma rectangular_replicate g (n m : nat) (v : T) :
  rectangular (with_data g (replicate n (replicate m v))) = true.
Proof.
  unfold rectangular; simpl. destruct n as [|n]; simpl; [reflexivity|].
  induction n as [|n IH]; simpl; [reflexivity|].
  rewrite IH, Nat.eqb_refl. reflexivity.
Qed.

Lemma resize_empty_dimensions w h g :
  height g = 0 -> 0 <= w -> 0 < h ->
  exists g', outcome (resize w h g) = Ok g' /\
             width g' = Ok w /\ height g' = h /\ rectangular g' = true.
Proof.
  intros Hg Hw Hh. eexists. split; [apply resize_empty; lia|].
  split; [|split].
  - unfold width; simpl. destruct (Z.to_nat h) as [|n] eqn:Hn; [lia|]. simpl.
    rewrite length_replicate. f_equal. lia.
  - unfold height; simpl. rewrite length_replicate. lia.
  - apply rectangular_replicate.
Qed.

(** On a grid that has rows, [resize] to a positive height keeps row 0 as
    it is: [width()] is what it was, whatever width was asked for. *)
Lemma resize_keeps_width w h g :
  0 < height g -> 0 <= w -> 0 < h ->
  exists g', outcome (resize w h g) = Ok g' /\ width g' = width g.
Proof.
  intros Hg Hw Hh. unfold resize, outcome; simpl.
  rewrite vector_resize_ok by lia. simpl. eexists. split; [reflexivity|].
  unfold width, height in *; simpl.
  destruct (data g) as [|row rows]; simpl in *; [lia|].
  destruct (Z.to_nat h) as [|n] eqn:Hn; [lia|]. reflexivity.
Qed.

End Resize.

(** [grid_1x1] is what [resize(1,1)] and one write make of a new grid. *)
Lemma grid_1x1_built :
  (g <- outcome (@resize Z int_2d 1 1 (@array2d_new Z int_2d)) ;; @set_at Z int_2d g 0 0 7) = Ok grid_1x1.
Proof. reflexivity. Qed.

(** C1. [resize(2,2)] on a 1x1 grid keeps the row that is there and adds
    one row of two elements: [height()] is 2, [width()] is still 1 and the
    rows differ in length. *)
Theorem resize_grows_rows_only :
  exists g' : array2d Z,
    outcome (@resize Z int_2d 2 2 grid_1x1) = Ok g' /\
    data g' = [[7]; [0; 0]] /\
    width g' = Ok 1 /\
    height g' = 2 /\
    rectangular g' = false.
Proof. eexists. repeat split. Qed.

(** ** The figure printed by resize *)

Lemma sizeof_cases (t : ctype) : sizeof t = 1 \/ sizeof t = 4 \/ sizeof t = 8.
Proof. destruct t; simpl; auto. Qed.

Lemma to_ull_small z : 0 <= z < 2 ^ 64 -> to_ull z = z.
Proof. intros Hz. unfold to_ull, to_unsigned. now apply Z.mod_small. Qed.

Lemma resize_printed {T : Type} {E : Element T} (w h : Z) (g : array2d T) :
  printed (resize w h g) = [approx_ram w h].
Proof. reflexivity. Qed.

Lemma approx_ram_no_wrap {T : Type} {E : Element T} (w h : Z) :
  0 <= w <= INT_MAX -> 0 <= h <= INT_MAX ->
  w * h * sizeof ctype_of < 2 ^ 64 ->
  approx_ram w h = w * h * sizeof ctype_of / (1024 * 1024).
Proof.
  unfold INT_MAX. intros Hw Hh Hfit. unfold approx_ram.
  assert (Hs : 1 <= sizeof ctype_of <= 8)
    by (destruct (sizeof_cases ctype_of) as [->|[->| ->]]; lia).
  rewrite (to_ull_small w) by lia.
  rewrite (to_ull_small h) by lia.
  rewrite (to_ull_small (sizeof ctype_of)) by lia.
  rewrite (to_ull_small (w * h)) by nia.
  rewrite (to_ull_small (w * h * sizeof ctype_of)) by nia.
  rewrite Z.div_div by lia. reflexivity.
Qed.

(** C9. A call of [resize] prints one figure. For non-negative [int]
    dimensions whose byte count [width*height*sizeof(T)] is below 2^64,
    as it always is for an element type of at most 4 bytes, the figure is
    the byte count divided by 1024*1024, rounded down. *)
Theorem resize_prints_megabytes :
  forall (T : Type) (E : Element T) (w h : Z) (g : array2d T),
    0 <= w <= INT_MAX -> 0 <= h <= INT_MAX ->
    sizeof ctype_of <= 4 \/ w * h * sizeof ctype_of < 2 ^ 64 ->
    printed (resize w h g) = [w * h * sizeof ctype_of / (1024 * 1024)] /\
    0 <= w * h * sizeof ctype_of / (1024 * 1024).
Proof.
  intros T E w h g Hw Hh Hfit. unfold INT_MAX in *.
  assert (Hs : 1 <= sizeof ctype_of <= 8)
    by (destruct (sizeof_cases ctype_of) as [->|[->| ->]]; lia).
  split.
  - rewrite resize_printed. f_equal.
    apply approx_ram_no_wrap; unfold INT_MAX; try lia.
    destruct Hfit as [Hsmall|Hfit]; [|assumption].
    assert (Hwh : w * h <= 2147483647 * 2147483647)
      by (apply Z.mul_le_mono_nonneg; lia).
    assert (Hwhs : w * h * sizeof ctype_of <= 2147483647 * 2147483647 * 4)
      by (apply Z.mul_le_mono_nonneg; nia).
    lia.
  - apply Z.div_pos; [|lia]. apply Z.mul_nonneg_nonneg; nia.
Qed.

Lemma resize_prints_megabytes_witness :
  printed (@resize Z int_2d 1024 1024 (@array2d_new Z int_2d)) = [4] /\
  printed (@resize float double_2d 4096 4096 (@array2d_new float double_2d)) = [128].
Proof.
  split.
  - apply (resize_prints_megabytes Z int_2d 1024 1024 (@array2d_new Z int_2d));
      [unfold INT_MAX; lia | unfold INT_MAX; lia | left; simpl; lia].
  - apply (resize_prints_megabytes float double_2d 4096 4096
             (@array2d_new float double_2d));
      [unfold INT_MAX; lia | unfold INT_MAX; lia | right; simpl; lia].
Defined.

(** C9, as stated: for a grid of [double]s and the largest [int]
    dimensions the product wraps around 2^64, and the figure printed is
    not the quotient of the exact byte count. *)
Lemma resize_prints_wrapped_figure :
  0 <= INT_MAX /\
  printed (@resize float double_2d INT_MAX INT_MAX (@array2d_new float double_2d)) = [17592186011648] /\
  INT_MAX * INT_MAX * sizeof c_double / 1024 / 1024 = 35184372056064 /\
  printed (@resize float double_2d INT_MAX INT_MAX (@array2d_new float double_2d))
    <> [INT_MAX * INT_MAX * sizeof c_double / 1024 / 1024].
Proof.
  rewrite resize_printed.
  split; [unfold INT_MAX; lia|].
  split; [vm_compute; reflexivity|].
  split; [vm_compute; reflexivity|].
  vm_compute. intros [=].
Qed.

(** ** estimated_output_size *)

Lemma long_mul_ok a b :
  - LONG_MAX - 1 <= a * b <= LONG_MAX -> long_mul a b = Ok (a * b).
Proof.
  intros Hr. unfold long_mul.
  destruct (Z.leb_spec (- LONG_MAX - 1) (a * b)); [|lia].
  destruct (Z.leb_spec (a * b) LONG_MAX); [|lia]. reflexivity.
Qed.

Lemma multiplier_cases (t : ctype) (m : Z) :
  multiplier t = Some m -> m = 2 \/ m = 4 \/ m = 9.
Proof. destruct t; simpl; intros [=]; auto. Qed.

(** For the four element types with a specialisation, on a grid with at
    least one row whose product fits a [long], the estimate is
    [multiplier*width()*height()]. *)
Lemma estimated_output_size_product {T : Type} {E : Element T} (g : array2d T) m w :
  multiplier ctype_of = Some m -> width g = Ok w ->
  m * w * height g <= LONG_MAX ->
  estimated_output_size g = Ok (m * w * height g).
Proof.
  intros Hm Hw Hfit. unfold estimated_output_size. rewrite Hm, Hw. simpl.
  pose proof (width_nonneg g w Hw) as Hw0.
  assert (Hh : 1 <= height g).
  { unfold width, height in *. destruct (data g); simpl in *; [discriminate|lia]. }
  assert (Hm0 : 2 <= m) by (destruct (multiplier_cases _ _ Hm) as [->|[->| ->]]; lia).
  unfold LONG_MAX in *.
  rewrite long_mul_ok by (unfold LONG_MAX; nia). simpl.
  rewrite long_mul_ok by (unfold LONG_MAX; nia). reflexivity.
Qed.

Lemma multiplier_table :
  multiplier (@ctype_of _ float_2d) = Some 9 /\
  multiplier (@ctype_of _ uint_2d) = Some 9 /\
  multiplier (@ctype_of _ bool_2d) = Some 2 /\
  multiplier (@ctype_of _ char_elt) = Some 4 /\
  multiplier (@ctype_of _ char_2d) = None /\
  multiplier (@ctype_of _ double_2d) = None /\
  multiplier (@ctype_of _ int_2d) = None.
Proof. repeat split. Qed.

(** A 100x100 grid of [float]s: 90000. *)
Lemma estimated_output_size_float_100 :
  @estimated_output_size _ float_2d (@filled _ float_2d 100 100 (S754_zero false)) = Ok 90000.
Proof. vm_compute. reflexivity. Qed.

(** C6. [char_2d] is [array2d<signed char>]; the specialisation with the
    multiplier 4 is that of [array2d<char>], another type. For a [char_2d]
    the member has no definition, whatever the grid. *)
Theorem estimated_output_size_char_2d :
  forall g : array2d Z,
    @estimated_output_size Z char_2d g = Err NoDefinition /\
    multiplier c_signed_char = None /\
    multiplier c_char = Some 4.
Proof. intros g. repeat split. Qed.

(** ** The bounds predicates *)

Section Bounds.
Context {T : Type}.
Implicit Types (g : array2d T).

Lemma in_grid_value g w x y :
  width g = Ok w ->
  in_grid g x y = Ok ((0 <=? x) && (0 <=? y) && (x <? w) && (y <? height g)).
Proof.
  intros Hw. unfold in_grid. rewrite Hw. simpl.
  destruct (0 <=? x), (0 <=? y), (x <? w); reflexivity.
Qed.

Lemma interior_grid_value g w x y :
  width g = Ok w ->
  interior_grid g x y =
    Ok ((1 <=? x) && (1 <=? y) && (x <? w - 1) && (y <? height g - 1)).
Proof.
  intros Hw. unfold interior_grid. rewrite Hw. simpl.
  destruct (1 <=? x), (1 <=? y), (x <? w - 1); reflexivity.
Qed.

Lemma edge_grid_value g w x y :
  width g = Ok w ->
  edge_grid g x y =
    Ok ((x =? 0) || (y =? 0) || (x =? w - 1) || (y =? height g - 1)).
Proof.
  intros Hw. unfold edge_grid. rewrite Hw. simpl.
  destruct (x =? 0), (y =? 0), (x =? w - 1); reflexivity.
Qed.

Lemma width_defined g : 0 < height g -> exists w, width g = Ok w.
Proof.
  unfold height, width. destruct (data g); simpl; [lia|]. eauto.
Qed.

Lemma in_grid_true g x y :
  in_grid g x y = Ok true <->
  exists w, width g = Ok w /\ 0 <= x < w /\ 0 <= y < height g.
Proof.
  split.
  - unfold in_grid.
    destruct (Z.leb_spec 0 x); simpl; [|discriminate].
    destruct (Z.leb_spec 0 y); simpl; [|discriminate].
    destruct (width g) as [w|]; simpl; [|discriminate].
    destruct (Z.ltb_spec x w); simpl; [|discriminate].
    destruct (Z.ltb_spec y (height g)); [|discriminate].
    intros _. exists w. repeat split; trivial.
  - intros (w & Hw & Hx & Hy). rewrite (in_grid_value g w) by assumption.
    f_equal. repeat (apply andb_true_intro; split); lia.
Qed.

Lemma interior_grid_true g w x y :
  width g = Ok w ->
  interior_grid g x y = Ok true <-> 1 <= x < w - 1 /\ 1 <= y < height g - 1.
Proof.
  intros Hw. rewrite (interior_grid_value g w) by assumption.
  destruct (Z.leb_spec 1 x), (Z.leb_spec 1 y), (Z.ltb_spec x (w - 1)),
    (Z.ltb_spec y (height g - 1)); simpl;
    (split; [intros [=]; lia | intros; (reflexivity || lia)]).
Qed.

Lemma edge_grid_true g w x y :
  width g = Ok w ->
  edge_grid g x y = Ok true <->
  x = 0 \/ y = 0 \/ x = w - 1 \/ y = height g - 1.
Proof.
  intros Hw. rewrite (edge_grid_value g w) by assumption.
  destruct (Z.eqb_spec x 0), (Z.eqb_spec y 0), (Z.eqb_spec x (w - 1)),
    (Z.eqb_spec y (height g - 1)); simpl;
    (split; [intros [=]; lia | intros; (reflexivity || lia)]).
Qed.

(** The predicates look at [width()] and [height()] only. *)
Lemma count_cells_ext (p q : Z -> Z -> result bool) cs :
  (forall x y, p x y = q x y) -> count_cells p cs = count_cells q cs.
Proof.
  intros Hpq. unfold count_cells. f_equal.
  apply List.filter_ext. intros [x y]. simpl. now rewrite Hpq.
Qed.

(** In-grid coordinates: exactly one of [interior_grid], [edge_grid]. *)
Lemma interior_xor_edge g x y :
  in_grid g x y = Ok true ->
  exists i e, interior_grid g x y = Ok i /\ edge_grid g x y = Ok e /\
              xorb i e = true.
Proof.
  intros Hin. apply in_grid_true in Hin as (w & Hw & Hx & Hy).
  rewrite (interior_grid_value g w), (edge_grid_value g w) by assumption.
  do 2 eexists. split; [reflexivity|]. split; [reflexivity|].
  destruct (Z.leb_spec 1 x), (Z.leb_spec 1 y), (Z.ltb_spec x (w - 1)),
    (Z.ltb_spec y (height g - 1)), (Z.eqb_spec x 0), (Z.eqb_spec y 0),
    (Z.eqb_spec x (w - 1)), (Z.eqb_spec y (height g - 1)); simpl; trivial; lia.
Qed.

End Bounds.

(** C3. On a grid with at least one row, every in-grid coordinate
    satisfies exactly one of [interior_grid] and [edge_grid]. On a 5x5
    grid [interior_grid] is true exactly for [x], [y] in 1..3, which are 9
    of the 25 in-grid coordinates, and among the in-grid coordinates
    [edge_grid] is true exactly for the other 16. *)
Theorem interior_edge_partition :
  forall (T : Type) (g : array2d T),
    0 < height g ->
    (forall x y, in_grid g x y = Ok true ->
       exists i e, interior_grid g x y = Ok i /\ edge_grid g x y = Ok e /\
                   xorb i e = true) /\
    (width g = Ok 5 -> height g = 5 ->
       (forall x y, interior_grid g x y = Ok true <->
                    (1 <= x <= 3 /\ 1 <= y <= 3)) /\
       (forall x y, in_grid g x y = Ok true ->
          (edge_grid g x y = Ok true <-> ~ (1 <= x <= 3 /\ 1 <= y <= 3))) /\
       length (coordinates 5 5) = 25%nat /\
       (forall x y, In (x, y) (coordinates 5 5) <-> in_grid g x y = Ok true) /\
       count_cells (interior_grid g) (coordinates 5 5) = 9%nat /\
       count_cells (edge_grid g) (coordinates 5 5) = 16%nat).
Proof.
  intros T g Hrows. split; [intros x y; apply interior_xor_edge|].
  intros Hw Hh.
  split; [|split; [|split; [|split; [|split]]]].
  - intros x y. rewrite (interior_grid_true g 5 x y Hw), Hh. lia.
  - intros x y Hin. apply in_grid_true in Hin as (w & Hw' & Hx & Hy).
    rewrite Hw in Hw'. injection Hw' as <-. rewrite Hh in Hy.
    rewrite (edge_grid_true g 5 x y Hw), Hh. lia.
  - reflexivity.
  - intros x y. rewrite in_grid_true. split.
    + intros Hin. exists 5. split; [assumption|]. rewrite Hh.
      vm_compute in Hin.
      repeat (destruct Hin as [Hin|Hin]; [injection Hin as <- <-; lia|]).
      contradiction.
    + intros (w & Hw' & Hx & Hy).
      rewrite Hw in Hw'. injection Hw' as <-. rewrite Hh in Hy.
      assert (Hxs : x = 0 \/ x = 1 \/ x = 2 \/ x = 3 \/ x = 4) by lia.
      assert (Hys : y = 0 \/ y = 1 \/ y = 2 \/ y = 3 \/ y = 4) by lia.
      destruct Hxs as [->|[->|[->|[->| ->]]]], Hys as [->|[->|[->|[->| ->]]]];
        vm_compute; tauto.
  - rewrite (count_cells_ext _
      (fun x y => Ok ((1 <=? x) && (1 <=? y) && (x <? 5 - 1) && (y <? 5 - 1)))).
    + vm_compute. reflexivity.
    + intros x y. now rewrite (interior_grid_value g 5), Hh.
  - rewrite (count_cells_ext _
      (fun x y => Ok ((x =? 0) || (y =? 0) || (x =? 5 - 1) || (y =? 5 - 1)))).
    + vm_compute. reflexivity.
    + intros x y. now rewrite (edge_grid_value g 5), Hh.
Qed.

Lemma interior_edge_partition_witness :
  0 < height grid_5x5 /\
  (forall x y, in_grid grid_5x5 x y = Ok true ->
     exists i e, interior_grid grid_5x5 x y = Ok i /\
                 edge_grid grid_5x5 x y = Ok e /\ xorb i e = true) /\
  (forall x y, interior_grid grid_5x5 x y = Ok true <->
               (1 <= x <= 3 /\ 1 <= y <= 3)) /\
  (forall x y, in_grid grid_5x5 x y = Ok true ->
     (edge_grid grid_5x5 x y = Ok true <-> ~ (1 <= x <= 3 /\ 1 <= y <= 3))) /\
  length (coordinates 5 5) = 25%nat /\
  (forall x y, In (x, y) (coordinates 5 5) <-> in_grid grid_5x5 x y = Ok true) /\
  count_cells (interior_grid grid_5x5) (coordinates 5 5) = 9%nat /\
  count_cells (edge_grid grid_5x5) (coordinates 5 5) = 16%nat.
Proof.
  assert (Hrows : 0 < height grid_5x5) by (vm_compute; reflexivity).
  split; [exact Hrows|].
  destruct (interior_edge_partition Z grid_5x5 Hrows) as [Hone Hfive].
  split; [exact Hone|].
  apply Hfive; reflexivity.
Defined.

(** C3, as stated: on the 5x5 grid the interior coordinates are 9, not
    16, and the in-grid edge coordinates are 16, not 9. *)
Lemma interior_edge_counts_5x5 :
  width grid_5x5 = Ok 5 /\ height grid_5x5 = 5 /\
  count_cells (interior_grid grid_5x5) (coordinates 5 5) = 9%nat /\
  count_cells (edge_grid grid_5x5) (coordinates 5 5) = 16%nat /\
  ~ (count_cells (interior_grid grid_5x5) (coordinates 5 5) = 16%nat /\
     count_cells (edge_grid grid_5x5) (coordinates 5 5) = 9%nat).
Proof.
  repeat split; try (vm_compute; reflexivity).
  vm_compute. intros [H _]. discriminate H.
Qed.

(** Outside the grid [edge_grid] can be true as well. *)
Lemma edge_grid_outside :
  in_grid grid_5x5 0 7 = Ok false /\ edge_grid grid_5x5 0 7 = Ok true.
Proof. split; reflexivity. Qed.

(** ** Cells *)

Section Cells.
Context {T : Type}.
Implicit Types (g : array2d T) (v : T).

Lemma shape_lookup g (j : nat) : shape g !! j = (length <$> (data g !! j)).
Proof. unfold shape. apply list_lookup_fmap. Qed.

Lemma width_shape g :
  width g = match shape g !! 0%nat with
            | Some n => Ok (Z.of_nat n)
            | None => Err UndefinedBehaviour
            end.
Proof. unfold width. rewrite shape_lookup. now destruct (data g !! 0%nat). Qed.

Lemma height_shape g : height g = Z.of_nat (length (shape g)).
Proof. unfold height, shape. now rewrite length_fmap. Qed.

Lemma same_shape_width g g' : shape g' = shape g -> width g' = width g.
Proof. intros Hs. now rewrite !width_shape, Hs. Qed.

Lemma same_shape_height g g' : shape g' = shape g -> height g' = height g.
Proof. intros Hs. now rewrite !height_shape, Hs. Qed.

(** In a rectangular grid every row has the length [width()]. *)
Lemma rectangular_rows g w (j : nat) :
  rectangular g = true -> width g = Ok w ->
  (j < length (data g))%nat -> shape g !! j = Some (Z.to_nat w).
Proof.
  unfold rectangular, width. rewrite shape_lookup.
  destruct (data g) as [|row rows]; simpl; [discriminate|].
  intros Hrect [= <-] Hj. rewrite Nat2Z.id.
  destruct j as [|j]; simpl; [reflexivity|].
  destruct (rows !! j) as [r|] eqn:Hr; simpl.
  - f_equal. rewrite forallb_forall in Hrect.
    apply Nat.eqb_eq, Hrect. apply list_elem_of_In.
    eapply list_elem_of_lookup_2; eassumption.
  - apply lookup_ge_None in Hr. lia.
Qed.

Lemma at_value g x y v :
  at_ g x y = Ok v <->
  0 <= x /\ 0 <= y /\
  exists row, data g !! Z.to_nat y = Some row /\ row !! Z.to_nat x = Some v.
Proof.
  unfold at_. destruct (Z.ltb_spec x 0); simpl.
  { split; [discriminate|lia]. }
  destruct (Z.ltb_spec y 0); simpl.
  { split; [discriminate|lia]. }
  destruct (data g !! Z.to_nat y) as [row|]; [destruct (row !! Z.to_nat x) as [u|] eqn:Hu|].
  - split.
    + intros [= <-]. eauto.
    + intros (_ & _ & row' & [= <-] & Hv). rewrite Hu in Hv. now injection Hv as <-.
  - split; [discriminate|]. intros (_ & _ & row' & [= <-] & Hv). congruence.
  - split; [discriminate|]. intros (_ & _ & row' & [=] & _).
Qed.

(** A cell inside the shape can be read. *)
Lemma at_defined g x y (n : nat) :
  0 <= x -> 0 <= y ->
  shape g !! Z.to_nat y = Some n -> (Z.to_nat x < n)%nat ->
  exists u, at_ g x y = Ok u.
Proof.
  intros Hx Hy Hn Hlt. rewrite shape_lookup in Hn.
  destruct (data g !! Z.to_nat y) as [row|] eqn:Hrow; simpl in Hn; [|discriminate].
  injection Hn as <-.
  destruct (lookup_lt_is_Some_2 row (Z.to_nat x) Hlt) as [u Hu].
  exists u. apply at_value. eauto.
Qed.

Lemma write_cell_data g x y v g' :
  write_cell g x y v = Ok g' ->
  (exists u, at_ g x y = Ok u) /\
  g' = with_data g (alter (fun row => <[Z.to_nat x := v]> row) (Z.to_nat y) (data g)).
Proof.
  unfold write_cell. destruct (at_ g x y) as [u|]; simpl; [|discriminate].
  intros [= <-]. eauto.
Qed.

Lemma write_cell_defined g x y v :
  (exists u, at_ g x y = Ok u) -> exists g', write_cell g x y v = Ok g'.
Proof. intros [u Hu]. unfold write_cell. rewrite Hu. simpl. eauto. Qed.

(** A write changes no row length. *)
Lemma write_cell_shape g x y v g' : write_cell g x y v = Ok g' -> shape g' = shape g.
Proof.
  intros Hset. apply write_cell_data in Hset as [_ ->]. unfold shape; simpl.
  apply list_eq. intros j. rewrite !list_lookup_fmap.
  destruct (decide (Z.to_nat y = j)) as [<-|Hne].
  - rewrite list_lookup_alter_eq. destruct (data g !! Z.to_nat y); simpl; [|reflexivity].
    now rewrite length_insert.
  - now rewrite list_lookup_alter_ne.
Qed.

(** A write is read back, and changes no other cell. *)
Lemma at_write_cell g x y v g' x' y' :
  write_cell g x y v = Ok g' ->
  at_ g' x' y' = if (x' =? x) && (y' =? y) then Ok v else at_ g x' y'.
Proof.
  intros Hset. apply write_cell_data in Hset as [[u Hu] ->].
  apply at_value in Hu as (Hx & Hy & row & Hrow & Hcell).
  unfold at_; simpl.
  destruct (Z.ltb_spec x' 0) as [Hx'|Hx']; simpl.
  { destruct (Z.eqb_spec x' x); [lia|reflexivity]. }
  destruct (Z.ltb_spec y' 0) as [Hy'|Hy']; simpl.
  { destruct (Z.eqb_spec y' y); [lia|]. now rewrite andb_false_r. }
  destruct (Z.eqb_spec y' y) as [->|Hny].
  - rewrite list_lookup_alter_eq, Hrow. simpl.
    destruct (Z.eqb_spec x' x) as [->|Hnx]; simpl.
    + rewrite list_lookup_insert_eq; [reflexivity|].
      eapply lookup_lt_Some; eassumption.
    + rewrite list_lookup_insert_ne by lia. reflexivity.
  - rewrite andb_false_r. rewrite list_lookup_alter_ne by lia. reflexivity.
Qed.

Lemma write_cell_metadata g x y v g' :
  write_cell g x y v = Ok g' ->
  cellsize g' = cellsize g /\ xllcorner g' = xllcorner g /\
  yllcorner g' = yllcorner g /\ data_cells g' = data_cells g /\
  no_data g' = no_data g.
Proof. intros Hset. apply write_cell_data in Hset as [_ ->]. repeat split. Qed.

End Cells.

(** ** The members operator(), on a vector that is not packed *)

Section Members.
Context {T : Type} {E : Element T}.
Implicit Types (g : array2d T) (v : T).

Lemma set_at_unpacked g x y v :
  packed ctype_of = false -> set_at g x y v = write_cell g x y v.
Proof. intros Hp. unfold set_at. now rewrite Hp. Qed.

Lemma set_at_ok g x y v g' :
  set_at g x y v = Ok g' ->
  packed ctype_of = false /\ write_cell g x y v = Ok g'.
Proof.
  unfold set_at. destruct (packed ctype_of); [discriminate|]. auto.
Qed.

Lemma set_at_packed g x y v :
  packed ctype_of = true -> set_at g x y v = Err IllFormed.
Proof. intros Hp. unfold set_at. now rewrite Hp. Qed.

Lemma get_unpacked g x y : packed ctype_of = false -> get g x y = at_ g x y.
Proof.
  intros Hp. unfold get. rewrite Hp. now destruct (at_ g x y).
Qed.

Lemma get_packed g x y u : packed ctype_of = true -> get g x y <> Ok u.
Proof.
  intros Hp. unfold get. rewrite Hp. now destruct (at_ g x y).
Qed.

Lemma set_at_shape g x y v g' : set_at g x y v = Ok g' -> shape g' = shape g.
Proof.
  intros [_ Hw]%set_at_ok. now apply (write_cell_shape g x y v).
Qed.

(** [init] on a vector that is not packed: its two loops. *)
Lemma init_unpacked g v :
  packed ctype_of = false ->
  init v g =
    (w <- width g ;;
     for_ (Z.to_nat w) 0
       (fun x gx =>
          for_ (Z.to_nat (height gx)) 0 (fun y gy => write_cell gy x y v) gx)
       g).
Proof.
  intros Hp. unfold init, set_at. rewrite Hp. reflexivity.
Qed.

Lemma init_packed g v g' : packed ctype_of = true -> init v g <> Ok g'.
Proof.
  intros Hp. unfold init. rewrite Hp. now destruct (width g).
Qed.

Lemma init_ok_unpacked g v g' : init v g = Ok g' -> packed ctype_of = false.
Proof.
  intros Hrun. destruct (packed ctype_of) eqn:Hp; [|reflexivity].
  now apply init_packed in Hrun.
Qed.

End Members.

(** ** Loops *)

(** A loop whose body keeps an invariant runs to its end and
    establishes the invariant there. *)
Lemma for_invariant {S : Type} (I : Z -> S -> Prop) (body : Z -> S -> result S)
    (n : nat) (i : Z) (s : S) :
  I i s ->
  (forall k t, i <= k < i + Z.of_nat n -> I k t ->
     exists t', body k t = Ok t' /\ I (k + 1) t') ->
  exists s', for_ n i body s = Ok s' /\ I (i + Z.of_nat n) s'.
Proof.
  revert i s. induction n as [|n IH]; intros i s Hinit Hstep.
  - exists s. simpl. now rewrite Z.add_0_r.
  - destruct (Hstep i s) as (t & Hbody & Ht); [lia|assumption|].
    simpl for_. rewrite Hbody.
    destruct (IH (i + 1) t Ht) as (s' & Hfor & Hs').
    + intros k u Hk. apply Hstep. lia.
    + exists s'. split; [assumption|].
      replace (i + Z.of_nat (Datatypes.S n)) with (i + 1 + Z.of_nat n) by lia.
      assumption.
Qed.

(** ** init *)

Section Init.
Context {T : Type} {E : Element T}.
Implicit Types (g : array2d T) (v : T).

(** On a rectangular grid with at least one row, of an element type
    whose vector is not packed, [init] runs to its end; it changes no row
    length and no metadata field, and every cell within [width()] and
    [height()] then holds the value. *)
Lemma init_correct g v w :
  packed ctype_of = false ->
  rectangular g = true -> width g = Ok w ->
  exists g', init v g = Ok g' /\ shape g' = shape g /\
             no_data g' = no_data g /\ data_cells g' = data_cells g /\
             forall x y, 0 <= x < w -> 0 <= y < height g -> at_ g' x y = Ok v.
Proof.
  intros Hp Hrect Hw. rewrite (init_unpacked g v Hp). rewrite Hw. simpl.
  pose proof (width_nonneg g w Hw) as Hw0.
  set (I := fun (x : Z) (gx : array2d T) =>
              shape gx = shape g /\ no_data gx = no_data g /\
              data_cells gx = data_cells g /\
              forall x' y', 0 <= x' < x -> 0 <= y' < height g ->
                            at_ gx x' y' = Ok v).
  destruct (for_invariant I
              (fun x gx => for_ (Z.to_nat (height gx)) 0
                             (fun y gy => write_cell gy x y v) gx)
              (Z.to_nat w) 0 g) as (g' & Hrun & Hend).
  - repeat split. intros x' y' Hx'. lia.
  - intros x gx Hx (Hshape & Hnd & Hdc & Hcells).
    set (J := fun (y : Z) (gy : array2d T) =>
                shape gy = shape g /\ no_data gy = no_data g /\
                data_cells gy = data_cells g /\
                (forall x' y', 0 <= x' < x -> 0 <= y' < height g ->
                               at_ gy x' y' = Ok v) /\
                (forall y', 0 <= y' < y -> at_ gy x y' = Ok v)).
    destruct (for_invariant J (fun y gy => write_cell gy x y v)
                (Z.to_nat (height gx)) 0 gx) as (gy & Hrun & Hend).
    + repeat split; try assumption. intros y' Hy'. lia.
    + intros y gy Hy (Hs & Hn & Hd & Hleft & Hcol).
      rewrite (same_shape_height g gx Hshape) in Hy.
      pose proof (height_nonneg g) as Hh0.
      destruct (write_cell_defined gy x y v) as [gy' Hset].
      { apply (at_defined gy x y (Z.to_nat w)); try lia.
        rewrite Hs. apply rectangular_rows; try assumption.
        unfold height in Hy. lia. }
      exists gy'. split; [assumption|].
      destruct (write_cell_metadata _ _ _ _ _ Hset) as (_ & _ & _ & Hd' & Hn').
      repeat split.
      * rewrite (write_cell_shape _ _ _ _ _ Hset). assumption.
      * congruence.
      * congruence.
      * intros x' y' Hx' Hy'. rewrite (at_write_cell _ _ _ _ _ x' y' Hset).
        destruct (Z.eqb_spec x' x); [lia|]. simpl. now apply Hleft.
      * intros y' Hy'. rewrite (at_write_cell _ _ _ _ _ x y' Hset).
        rewrite Z.eqb_refl. simpl.
        destruct (Z.eqb_spec y' y); [reflexivity|]. apply Hcol. lia.
    + exists gy. split; [assumption|].
      destruct Hend as (Hs & Hn & Hd & Hleft & Hcol).
      rewrite (same_shape_height g gx Hshape) in Hcol.
      pose proof (height_nonneg g) as Hh0.
      repeat split; try assumption.
      intros x' y' Hx' Hy'.
      destruct (Z.eq_dec x' x) as [->|Hne].
      * apply Hcol. lia.
      * apply Hleft; lia.
  - exists g'. split; [assumption|].
    destruct Hend as (Hs & Hn & Hd & Hcells).
    repeat split; try assumption.
    intros x y Hx Hy. apply Hcells; lia.
Qed.

End Init.

(** C5. A grid without rows (a new grid, any grid after [clear()]) is
    rectangular, and [init] on it is undefined: its first step is
    [width()], which reads row 0. For an element type with a packed
    vector ([bool]) [init] does not compile, so it succeeds on no grid. *)
Theorem init_undefined_without_rows :
  forall (T : Type) (E : Element T) (v : T) (g : array2d T),
    rectangular (@array2d_new T E) = true /\
    init v (@array2d_new T E) = Err UndefinedBehaviour /\
    rectangular (clear g) = true /\
    init v (clear g) = Err UndefinedBehaviour /\
    (packed ctype_of = true -> forall g', init v g <> Ok g') /\
    @init Z int_2d 5 (@array2d_new Z int_2d) = Err UndefinedBehaviour /\
    @init bool bool_2d true (@filled bool bool_2d 1 1 false) = Err IllFormed.
Proof.
  intros T E v g.
  split; [reflexivity|]. split; [reflexivity|].
  split; [reflexivity|]. split; [reflexivity|].
  split; [|split; reflexivity].
  intros Hp g'. now apply init_packed.
Qed.

(** ** copyprops and the converting constructor *)

Lemma to_int_small z : 0 <= z <= INT_MAX -> to_int z = z.
Proof.
  unfold INT_MAX, to_int, to_signed. intros Hz.
  change (2 ^ (32 - 1)) with 2147483648. change (2 ^ 32) with 4294967296.
  rewrite Z.mod_small by lia. lia.
Qed.

Section CopyProps.
Context {T U : Type} {ET : Element T}.
Variable conv : U -> option T.
Implicit Types (S : array2d U) (D : array2d T).

(** What [copyprops] makes of its destination, for a source with rows
    whose dimensions fit an [int] and whose [no_data] converts. *)
Lemma copyprops_outcome S D w n :
  conv (no_data S) = Some n ->
  width S = Ok w -> w <= INT_MAX -> height S <= INT_MAX ->
  copyprops conv S D =
    resize w (height S)
      (mk_array2d (data D) (cellsize S) (xllcorner S) (yllcorner S)
         (data_cells S) n).
Proof.
  intros Hn Hw Hwmax Hhmax. unfold copyprops. rewrite Hn, Hw.
  pose proof (width_nonneg S w Hw). pose proof (height_nonneg S).
  rewrite !to_int_small by lia. reflexivity.
Qed.


Lemma width_gives_rows S w : width S = Ok w -> 0 < height S.
Proof.
  unfold width, height. destruct (data S); simpl; [discriminate|lia].
Qed.

Lemma copyprops_fields S D w n :
  conv (no_data S) = Some n ->
  width S = Ok w -> w <= INT_MAX -> height S <= INT_MAX ->
  exists D',
    outcome (copyprops conv S D) = Ok D' /\
    cellsize D' = cellsize S /\ xllcorner D' = xllcorner S /\
    yllcorner D' = yllcorner S /\ data_cells D' = data_cells S /\
    no_data D' = n /\
    height D' = height S /\
    (height D = 0 -> width D' = width S /\ rectangular D' = true).
Proof.
  intros Hn Hw Hwmax Hhmax. rewrite (copyprops_outcome S D w n) by assumption.
  pose proof (width_nonneg S w Hw) as Hw0.
  pose proof (width_gives_rows S w Hw) as Hh0.
  set (D0 := mk_array2d (data D) _ _ _ _ _).
  destruct (outcome (resize w (height S) D0)) as [D'|e] eqn:Hres.
  - exists D'. split; [reflexivity|].
    destruct (resize_metadata _ _ _ _ Hres) as (-> & -> & -> & -> & ->).
    repeat split; try reflexivity.
    + now apply resize_height in Hres.
    + destruct (resize_empty_dimensions w (height S) D0) as (D1 & H1 & Hw1 & _ & _);
        [exact H|lia|lia|].
      rewrite Hres in H1. injection H1 as <-. now rewrite Hw.
    + destruct (resize_empty_dimensions w (height S) D0) as (D1 & H1 & _ & _ & Hr1);
        [exact H|lia|lia|].
      rewrite Hres in H1. now injection H1 as <-.
  - exfalso. unfold resize, outcome in Hres; simpl in Hres.
    rewrite vector_resize_ok in Hres by lia. discriminate.
Qed.

End CopyProps.

(** ** Grids of int-sized dimensions *)

Lemma to_int_range z : - INT_MAX - 1 <= to_int z <= INT_MAX.
Proof.
  unfold INT_MAX, to_int, to_signed.
  change (2 ^ (32 - 1)) with 2147483648. change (2 ^ 32) with 4294967296.
  pose proof (Z.mod_pos_bound (z + 2147483648) 4294967296). lia.
Qed.

Section IntSized.
Context {T : Type}.
Implicit Types (g : array2d T).

Lemma int_sized_spec g :
  int_sized g = true <->
  height g <= INT_MAX /\ forall n, n ∈ shape g -> Z.of_nat n <= INT_MAX.
Proof.
  unfold int_sized. rewrite andb_true_iff, Z.leb_le, forallb_forall, height_shape.
  split; intros [Hh Hrows]; (split; [exact Hh|]); intros n Hn.
  - apply Z.leb_le, Hrows, list_elem_of_In, Hn.
  - apply Z.leb_le, Hrows, list_elem_of_In, Hn.
Qed.

Lemma int_sized_same_shape g g' :
  shape g' = shape g -> int_sized g' = int_sized g.
Proof. intros Hs. unfold int_sized. now rewrite Hs. Qed.

Lemma int_sized_width g w : int_sized g = true -> width g = Ok w -> w <= INT_MAX.
Proof.
  intros Hg Hw. apply int_sized_spec in Hg as [_ Hrows].
  rewrite width_shape in Hw.
  destruct (shape g !! 0%nat) as [n|] eqn:Hn; [|discriminate].
  injection Hw as <-. apply Hrows. eapply list_elem_of_lookup_2; eassumption.
Qed.

Lemma int_sized_clear g : int_sized (clear g) = true.
Proof. reflexivity. Qed.

Context {E : Element T}.

Lemma int_sized_set_at g x y v g' :
  set_at g x y v = Ok g' -> int_sized g' = int_sized g.
Proof. intros Hset. apply int_sized_same_shape. eapply set_at_shape; eassumption. Qed.

Lemma int_sized_new : int_sized (@array2d_new T E) = true.
Proof. reflexivity. Qed.

Lemma int_sized_resize w h g g' :
  w <= INT_MAX -> h <= INT_MAX -> int_sized g = true ->
  outcome (resize w h g) = Ok g' -> int_sized g' = true.
Proof.
  intros Hw Hh Hg Hres. apply int_sized_spec. split.
  - now rewrite (resize_height w h g g' Hres).
  - apply int_sized_spec in Hg as [_ Hrows].
    unfold resize, outcome, vector_resize in Hres; simpl in Hres.
    destruct (Z.ltb_spec w 0); [discriminate|].
    destruct (Z.ltb_spec h 0); [discriminate|].
    simpl in Hres. injection Hres as <-. unfold shape; simpl.
    rewrite fmap_app, fmap_take, fmap_replicate, length_replicate.
    intros n [Hn|Hn]%elem_of_app.
    + apply Hrows. eapply subseteq_take; eassumption.
    + apply elem_of_replicate_inv in Hn as ->. lia.
Qed.

End IntSized.

(** [copyprops] gives its destination int-sized dimensions when it had such. *)
Lemma int_sized_copyprops {T U : Type} {ET : Element T} (conv : U -> option T)
    (S : array2d U) (D D' : array2d T) :
  int_sized D = true -> outcome (copyprops conv S D) = Ok D' ->
  int_sized D' = true.
Proof.
  intros HD. unfold copyprops.
  destruct (conv (no_data S)) as [n|]; [|discriminate].
  destruct (width S) as [w|e]; [|discriminate].
  apply int_sized_resize.
  - apply to_int_range.
  - apply to_int_range.
  - exact HD.
Qed.

(** ** The conversions *)



(** The conversion from [int] is the one the default constructor uses
    for [no_data=-1]. *)
Lemma convert_from_int (t : ctype) (z : Z) :
  - INT_MAX - 1 <= z <= INT_MAX ->
  convert c_int t z = Some (@of_int _ (elt t) z).
Proof. destruct t; reflexivity. Qed.

(** A [float] -9999, the usual [no_data] of an elevation grid, has no
    [signed char] to be converted to; as a [double] it converts to the
    [int] -9999. *)
Lemma convert_no_data_examples :
  convert c_float c_signed_char (binary_normalize 24 128 (-9999) 0 false) = None /\
  convert c_double c_int (-9999)%float = Some (-9999) /\
  convert c_double c_float 0x1p+128%float = None /\
  convert c_float c_double (binary_normalize 24 128 (-9999) 0 false)
    = Some (-9999)%float.
Proof. repeat split; vm_compute; reflexivity. Qed.




(** ** operator== *)

(** A loop that can be left early, over a body that is defined on the
    whole range: it answers, and answers [false] exactly when the body
    does so everywhere. *)
Lemma any_answer (body : Z -> result bool) (n : nat) (i : Z) :
  (forall k, i <= k < i + Z.of_nat n -> exists b, body k = Ok b) ->
  exists b, any_ n i body = Ok b /\
            (b = false <-> forall k, i <= k < i + Z.of_nat n -> body k = Ok false).
Proof.
  revert i. induction n as [|n IH]; intros i Hdef.
  - exists false. simpl. split; [reflexivity|]. split; [intros _ k Hk; lia|reflexivity].
  - destruct (Hdef i) as [b Hb]; [lia|].
    destruct (IH (i + 1)) as (r & Hr & Hfalse).
    { intros k Hk. apply Hdef. lia. }
    simpl any_. rewrite Hb. destruct b.
    + exists true. split; [reflexivity|]. split; [discriminate|].
      intros Hall. specialize (Hall i). rewrite Hb in Hall.
      assert (Ok true = Ok false) as [=] by (apply Hall; lia).
    + exists r. split; [assumption|]. rewrite Hfalse. split.
      * intros Hall k Hk. destruct (Z.eq_dec k i) as [->|Hne]; [assumption|].
        apply Hall. lia.
      * intros Hall k Hk. apply Hall. lia.
Qed.

Section Equality.
Context {T : Type} {E : Element T}.
Implicit Types (A B : array2d T).

(** The comparison reads [data] only. *)
Lemma array2d_eq_reads_data A B A' B' :
  data A' = data A -> data B' = data B -> array2d_eq A' B' = array2d_eq A B.
Proof.
  intros HA HB. unfold array2d_eq, width, height, get, at_. now rewrite HA, HB.
Qed.

(** A grid without rows on either side: the comparison starts with
    [width()] of both. *)
Lemma array2d_eq_no_rows A B :
  height A = 0 \/ height B = 0 -> array2d_eq A B = Err UndefinedBehaviour.
Proof.
  intros Hrows. unfold array2d_eq.
  destruct (width A) as [w|e] eqn:HwA; simpl.
  - destruct Hrows as [HA|HB].
    + apply height_zero_data, width_nil in HA. congruence.
    + apply height_zero_data, width_nil in HB. now rewrite HB.
  - unfold width in HwA. destruct (data A !! 0%nat); [discriminate|].
    now injection HwA as <-.
Qed.

(** Two rectangular grids with rows, of an element type whose vector is
    not packed: the comparison answers, and answers [true] exactly when
    widths and heights agree and no pair of corresponding cells is told
    apart by [operator!=]. *)
Lemma array2d_eq_rectangular A B wa wb :
  packed ctype_of = false ->
  rectangular A = true -> rectangular B = true ->
  width A = Ok wa -> width B = Ok wb ->
  exists r, array2d_eq A B = Ok r /\
    (r = true <->
     wa = wb /\ height A = height B /\
     forall x y, 0 <= x < wa -> 0 <= y < height A ->
       exists a b, at_ A x y = Ok a /\ at_ B x y = Ok b /\ ne a b = false).
Proof.
  intros Hp HrA HrB HwA HwB. unfold array2d_eq. rewrite HwA, HwB. simpl.
  destruct (Z.eqb_spec wa wb) as [<-|Hw]; simpl.
  2: { exists false. split; [reflexivity|]. split; [discriminate|]. intros [? _]. contradiction. }
  destruct (Z.eqb_spec (height A) (height B)) as [Hh|Hh]; simpl.
  2: { exists false. split; [reflexivity|]. split; [discriminate|]. intros (_ & ? & _). contradiction. }
  pose proof (width_nonneg A wa HwA) as Hw0. pose proof (height_nonneg A) as Hh0.
  assert (Hcell : forall x y, 0 <= x < wa -> 0 <= y < height A ->
            exists a b, at_ A x y = Ok a /\ at_ B x y = Ok b).
  { intros x y Hx Hy.
    destruct (at_defined A x y (Z.to_nat wa)) as [a Ha]; try lia.
    { apply rectangular_rows; try assumption. unfold height in Hy. lia. }
    destruct (at_defined B x y (Z.to_nat wa)) as [b Hb]; try lia.
    { apply rectangular_rows; try assumption. rewrite Hh in Hy. unfold height in Hy. lia. }
    eauto. }
  set (cell := fun x y => a <- get A x y ;; b <- get B x y ;; Ok (ne a b)).
  assert (Hcol : forall x, 0 <= x < wa ->
            exists b, any_ (Z.to_nat (height A)) 0 (cell x) = Ok b /\
              (b = false <-> forall y, 0 <= y < height A -> cell x y = Ok false)).
  { intros x Hx.
    destruct (any_answer (cell x) (Z.to_nat (height A)) 0) as (b & Hb & Hiff).
    - intros y Hy. destruct (Hcell x y) as (a & b & Ha & Hb); [lia|lia|].
      unfold cell. rewrite !get_unpacked, Ha, Hb by assumption. simpl. eauto.
    - exists b. split; [assumption|]. rewrite Hiff. split; intros Hall y Hy; apply Hall; lia. }
  destruct (any_answer (fun x => any_ (Z.to_nat (height A)) 0 (cell x)) (Z.to_nat wa) 0)
    as (d & Hd & Hiff).
  { intros x Hx. destruct (Hcol x) as (b & Hb & _); [lia|]. eauto. }
  pose proof Hd as Hd'. cbv beta delta [cell] in Hd'. rewrite Hd'. simpl.
  exists (negb d). split; [reflexivity|].
  rewrite negb_true_iff, Hiff. split.
  - intros Hall. split; [reflexivity|]. split; [assumption|].
    intros x y Hx Hy.
    destruct (Hcol x Hx) as (b & Hb & Hbiff).
    rewrite (Hall x) in Hb by lia. injection Hb as <-.
    destruct (Hcell x y Hx Hy) as (a & b & Ha & Hb).
    exists a, b. split; [assumption|]. split; [assumption|].
    assert (Hxy : cell x y = Ok false) by (apply Hbiff; [reflexivity|assumption]).
    unfold cell in Hxy. rewrite !get_unpacked, Ha, Hb in Hxy by assumption.
    simpl in Hxy. congruence.
  - intros (_ & _ & Hall) x Hx.
    destruct (Hcol x) as (b & Hb & Hbiff); [lia|].
    rewrite Hb. f_equal. apply Hbiff. intros y Hy.
    destruct (Hall x y) as (a & c & Ha & Hc & Hne); [lia|assumption|].
    unfold cell. rewrite !get_unpacked, Ha, Hc by assumption. simpl.
    now rewrite Hne.
Qed.

End Equality.

(** C4. A grid without rows on either side of [==]: the comparison
    begins with [width()] of both grids, which reads row 0 of each, so it
    neither answers [true] (two grids without rows) nor [false] (one of
    them with rows). *)
Theorem array2d_eq_grid_without_rows :
  forall (T : Type) (E : Element T) (A B : array2d T),
    array2d_eq array2d_new B = Err UndefinedBehaviour /\
    array2d_eq A array2d_new = Err UndefinedBehaviour /\
    array2d_eq (clear A) B = Err UndefinedBehaviour /\
    array2d_eq A (clear B) = Err UndefinedBehaviour /\
    @array2d_eq Z int_2d (@array2d_new Z int_2d) grid_1x1
      = Err UndefinedBehaviour /\
    @array2d_eq Z int_2d grid_1x1 (@array2d_new Z int_2d)
      = Err UndefinedBehaviour /\
    @array2d_eq Z int_2d (@array2d_new Z int_2d) (@array2d_new Z int_2d)
      = Err UndefinedBehaviour.
Proof.
  intros T E A B. repeat split;
    try (apply array2d_eq_no_rows; (left; reflexivity) || (right; reflexivity)).
Qed.

(** * Further properties of the container *)

(** ** What resize does to the rows *)

Section ResizeRows.
Context {T : Type} {E : Element T}.
Implicit Types (g : array2d T).

Lemma resize_data w h g :
  0 <= w -> 0 <= h ->
  outcome (resize w h g) =
    Ok (with_data g
          (take (Z.to_nat h) (data g)
           ++ replicate (Z.to_nat h - length (data g))
                (replicate (Z.to_nat w) value_init))).
Proof.
  intros Hw Hh. unfold resize, outcome; simpl.
  now rewrite vector_resize_ok by assumption.
Qed.

(** Rows that were there and are below the new height keep their cells. *)
Lemma resize_old_rows w h g g' x y :
  outcome (resize w h g) = Ok g' -> y < h -> y < height g ->
  at_ g' x y = at_ g x y.
Proof.
  intros Hres Hyh Hyg.
  destruct (Z.ltb_spec w 0) as [Hw|Hw].
  { unfold resize, outcome in Hres; simpl in Hres.
    rewrite vector_resize_negative in Hres by lia. discriminate. }
  destruct (Z.ltb_spec h 0) as [Hh|Hh].
  { unfold resize, outcome in Hres; simpl in Hres.
    rewrite vector_resize_negative in Hres by lia. discriminate. }
  rewrite resize_data in Hres by assumption. injection Hres as <-.
  unfold at_; simpl. destruct ((x <? 0) || (y <? 0)) eqn:Hneg; [reflexivity|].
  apply orb_false_elim in Hneg as [_ Hy0]. apply Z.ltb_ge in Hy0.
  unfold height in Hyg.
  rewrite lookup_app_l by (rewrite length_take; lia).
  rewrite lookup_take_lt by lia. reflexivity.
Qed.

(** Rows that were not there are rows of [w] value-initialised cells. *)
Lemma resize_new_rows w h g g' x y :
  outcome (resize w h g) = Ok g' -> height g <= y < h ->
  at_ g' x y =
    if (0 <=? x) && (x <? w) then Ok value_init else Err UndefinedBehaviour.
Proof.
  intros Hres [Hyg Hyh]. pose proof (height_nonneg g) as Hg0.
  destruct (Z.ltb_spec w 0) as [Hw|Hw].
  { unfold resize, outcome in Hres; simpl in Hres.
    rewrite vector_resize_negative in Hres by lia. discriminate. }
  rewrite resize_data in Hres by lia. injection Hres as <-.
  unfold at_, height in *; simpl.
  destruct (Z.ltb_spec x 0) as [Hx|Hx]; simpl.
  { destruct (Z.leb_spec 0 x); [lia|reflexivity]. }
  destruct (Z.ltb_spec y 0); [lia|]. simpl.
  rewrite lookup_app_r by (rewrite length_take; lia).
  rewrite lookup_replicate_2 by (rewrite length_take; lia).
  destruct (Z.leb_spec 0 x); [|lia]. simpl.
  destruct (Z.ltb_spec x w).
  - rewrite lookup_replicate_2 by lia. reflexivity.
  - rewrite lookup_ge_None_2 by (rewrite length_replicate; lia). reflexivity.
Qed.

(** A grid is rectangular when all its rows have one length. *)
Lemma rectangular_one_length g (k : nat) :
  (forall n, n ∈ shape g -> n = k) -> rectangular g = true.
Proof.
  unfold rectangular, shape. destruct (data g) as [|row rows]; [reflexivity|].
  intros Hall. apply forallb_forall. intros r Hr. apply Nat.eqb_eq.
  rewrite (Hall (length r)), (Hall (length row)); [reflexivity| |].
  - rewrite fmap_cons. apply list_elem_of_here.
  - rewrite fmap_cons. apply list_elem_of_further, list_elem_of_fmap.
    exists r. split; [reflexivity|]. now apply list_elem_of_In.
Qed.

Lemma resize_shape w h g :
  0 <= w -> 0 <= h ->
  exists g', outcome (resize w h g) = Ok g' /\
    shape g' = take (Z.to_nat h) (shape g)
               ++ replicate (Z.to_nat h - length (shape g)) (Z.to_nat w).
Proof.
  intros Hw Hh. eexists. split; [now apply resize_data|].
  unfold shape; simpl.
  now rewrite fmap_app, fmap_take, fmap_replicate, length_replicate, length_fmap.
Qed.

End ResizeRows.

(** X1. On a grid without rows (a new grid, or any grid after [clear()])
    [resize(w,h)] with [w>=0] and [h>0] builds a rectangular grid with
    [width()==w] and [height()==h] whose every in-grid cell is a
    value-initialised [T]; the metadata fields are not touched. *)
Theorem resize_from_no_rows :
  forall (T : Type) (E : Element T) (g : array2d T) (w h : Z),
    height g = 0 -> 0 <= w -> 0 < h ->
    exists g',
      outcome (resize w h g) = Ok g' /\
      width g' = Ok w /\ height g' = h /\ rectangular g' = true /\
      (forall x y, in_grid g' x y = Ok true -> at_ g' x y = Ok value_init) /\
      cellsize g' = cellsize g /\ xllcorner g' = xllcorner g /\
      yllcorner g' = yllcorner g /\ data_cells g' = data_cells g /\
      no_data g' = no_data g.
Proof.
  intros T E g w h Hg Hw Hh.
  destruct (resize_empty_dimensions w h g Hg Hw Hh) as (g' & Hres & Hwd & Hht & Hrect).
  exists g'. split; [assumption|]. split; [assumption|]. split; [assumption|].
  split; [assumption|]. split; [|now apply (resize_metadata w h)].
  intros x y Hin. apply in_grid_true in Hin as (w' & Hw' & Hx & Hy).
  rewrite Hwd in Hw'. injection Hw' as <-. rewrite Hht in Hy.
  rewrite (resize_new_rows w h g g' x y Hres) by lia.
  destruct (Z.leb_spec 0 x); [|lia]. destruct (Z.ltb_spec x w); [|lia]. reflexivity.
Qed.

Lemma resize_from_no_rows_witness :
  exists g',
    outcome (@resize Z int_2d 3 2 (clear grid_5x5)) = Ok g' /\
    width g' = Ok 3 /\ height g' = 2 /\ rectangular g' = true /\
    (forall x y, in_grid g' x y = Ok true -> at_ g' x y = Ok 0) /\
    cellsize g' = cellsize (clear grid_5x5) /\
    xllcorner g' = xllcorner (clear grid_5x5) /\
    yllcorner g' = yllcorner (clear grid_5x5) /\
    data_cells g' = data_cells (clear grid_5x5) /\
    no_data g' = no_data (clear grid_5x5).
Proof.
  apply (resize_from_no_rows Z int_2d (clear grid_5x5) 3 2); [reflexivity|lia|lia].
Defined.

(** X2. [resize(w,h)] with non-negative arguments always succeeds and
    sets [height()] to [h]; the rows below both the old and the new height
    keep all their cells, every added row consists of [w] value-initialised
    cells, and the metadata fields are not touched. If the grid had rows
    and keeps one, [width()] is what it was before. *)
Theorem resize_keeps_rows :
  forall (T : Type) (E : Element T) (g : array2d T) (w h : Z),
    0 <= w -> 0 <= h ->
    exists g',
      outcome (resize w h g) = Ok g' /\
      height g' = h /\
      (forall x y, y < h -> y < height g -> at_ g' x y = at_ g x y) /\
      (forall x y, height g <= y < h ->
         at_ g' x y = if (0 <=? x) && (x <? w) then Ok value_init
                      else Err UndefinedBehaviour) /\
      (0 < height g -> 0 < h -> width g' = width g) /\
      cellsize g' = cellsize g /\ xllcorner g' = xllcorner g /\
      yllcorner g' = yllcorner g /\ data_cells g' = data_cells g /\
      no_data g' = no_data g.
Proof.
  intros T E g w h Hw Hh.
  pose proof (resize_data w h g Hw Hh) as Hres.
  eexists. split; [exact Hres|].
  split; [now apply (resize_height w h g)|].
  split; [intros x y; now apply (resize_old_rows w h g)|].
  split; [intros x y; now apply (resize_new_rows w h g)|].
  split; [|now apply (resize_metadata w h)].
  intros Hg Hh'. destruct (resize_keeps_width w h g Hg Hw Hh') as (g' & Hres' & Hwd).
  rewrite Hres in Hres'. injection Hres' as <-. exact Hwd.
Qed.

Lemma resize_keeps_rows_witness :
  exists g',
    outcome (@resize Z int_2d 2 2 grid_1x1) = Ok g' /\
    height g' = 2 /\
    (forall x y, y < 2 -> y < height grid_1x1 -> at_ g' x y = at_ grid_1x1 x y) /\
    (forall x y, height grid_1x1 <= y < 2 ->
       at_ g' x y = if (0 <=? x) && (x <? 2) then Ok 0
                    else Err UndefinedBehaviour) /\
    (0 < height grid_1x1 -> 0 < 2 -> width g' = width grid_1x1) /\
    cellsize g' = cellsize grid_1x1 /\ xllcorner g' = xllcorner grid_1x1 /\
    yllcorner g' = yllcorner grid_1x1 /\ data_cells g' = data_cells grid_1x1 /\
    no_data g' = no_data grid_1x1.
Proof. apply (resize_keeps_rows Z int_2d grid_1x1 2 2); lia. Defined.

(** X3. Resizing a rectangular grid to the width it has and a positive
    height gives a rectangular grid of that width and the new height. *)
Theorem resize_same_width :
  forall (T : Type) (E : Element T) (g : array2d T) (w h : Z),
    rectangular g = true -> width g = Ok w -> 0 < h ->
    exists g',
      outcome (resize w h g) = Ok g' /\
      rectangular g' = true /\ width g' = Ok w /\ height g' = h.
Proof.
  intros T E g w h Hrect Hwd Hh.
  pose proof (width_nonneg g w Hwd) as Hw.
  pose proof (width_gives_rows g w Hwd) as Hrows.
  destruct (resize_shape w h g) as (g' & Hres & Hshape); [lia|lia|].
  exists g'. split; [assumption|]. split; [|split].
  - apply (rectangular_one_length g' (Z.to_nat w)). rewrite Hshape.
    intros n [Hn|Hn]%elem_of_app.
    + apply subseteq_take in Hn. apply list_elem_of_lookup in Hn as [j Hj].
      pose proof (lookup_lt_Some _ _ _ Hj) as Hlt.
      unfold shape in Hlt. rewrite length_fmap in Hlt.
      rewrite (rectangular_rows g w j Hrect Hwd Hlt) in Hj. congruence.
    + now apply elem_of_replicate_inv in Hn.
  - destruct (resize_keeps_width w h g Hrows Hw Hh) as (g'' & Hres' & Hwd').
    rewrite Hres in Hres'. injection Hres' as <-. now rewrite Hwd'.
  - now apply (resize_height w h g).
Qed.

Lemma resize_same_width_witness :
  exists g',
    outcome (@resize Z int_2d 5 7 grid_5x5) = Ok g' /\
    rectangular g' = true /\ width g' = Ok 5 /\ height g' = 7.
Proof.
  apply (resize_same_width Z int_2d grid_5x5 5 7); [reflexivity|reflexivity|lia].
Defined.

(** X4. Whatever the arguments, negative ones included, the figure
    [resize] prints lies between 0 and 2^44 - 1. *)
Theorem approx_ram_range :
  forall (T : Type) (E : Element T) (w h : Z) (g : array2d T),
    exists mb, printed (resize w h g) = [mb] /\ 0 <= mb < 2 ^ 44.
Proof.
  intros T E w h g. exists (approx_ram w h). split; [reflexivity|].
  unfold approx_ram.
  set (p := to_ull (to_ull w * to_ull h) * to_ull (sizeof ctype_of)).
  unfold to_ull, to_unsigned.
  pose proof (Z.mod_pos_bound p (2 ^ 64) ltac:(lia)) as Hp.
  change (2 ^ 64) with 18446744073709551616 in *.
  change (2 ^ 44) with 17592186044416.
  rewrite Z.div_div by lia. split.
  - apply Z.div_pos; lia.
  - apply Z.div_lt_upper_bound; lia.
Qed.

(** X5. After a [resize] that narrows and lengthens a grid with rows,
    [in_grid] accepts a coordinate, in the last column of the last row,
    whose cell does not exist: [operator()] there is out of range. *)
Theorem in_grid_after_narrowing_resize :
  forall (T : Type) (E : Element T) (g : array2d T) (w w' h' : Z),
    width g = Ok w -> 0 <= w' < w -> height g < h' ->
    exists g',
      outcome (resize w' h' g) = Ok g' /\
      in_grid g' (w - 1) (h' - 1) = Ok true /\
      at_ g' (w - 1) (h' - 1) = Err UndefinedBehaviour.
Proof.
  intros T E g w w' h' Hwd Hw' Hh'.
  pose proof (width_gives_rows g w Hwd) as Hrows.
  destruct (resize_keeps_width w' h' g) as (g' & Hres & Hwd'); [lia|lia|lia|].
  exists g'. split; [assumption|]. split.
  - apply in_grid_true. exists w. split; [congruence|].
    rewrite (resize_height w' h' g g' Hres). lia.
  - rewrite (resize_new_rows w' h' g g' _ _ Hres) by lia.
    destruct (Z.leb_spec 0 (w - 1)); [|lia].
    destruct (Z.ltb_spec (w - 1) w'); [lia|]. reflexivity.
Qed.

Lemma in_grid_after_narrowing_resize_witness :
  exists g',
    outcome (@resize Z int_2d 1 6 grid_5x5) = Ok g' /\
    in_grid g' (5 - 1) (6 - 1) = Ok true /\
    at_ g' (5 - 1) (6 - 1) = Err UndefinedBehaviour.
Proof.
  apply (in_grid_after_narrowing_resize Z int_2d grid_5x5 5 1 6);
    [reflexivity | lia | vm_compute; reflexivity].
Defined.

(** ** Reading and writing cells *)

(** X6. For an element type whose vector is not packed, a write to a
    cell that exists succeeds; the cell then reads back the value written,
    every other coordinate reads what it read before, and neither a row
    length nor a metadata field changes. *)
Theorem write_then_read :
  forall (T : Type) (E : Element T) (g : array2d T) (x y : Z) (u v : T),
    packed ctype_of = false ->
    get g x y = Ok u ->
    exists g',
      set_at g x y v = Ok g' /\
      get g' x y = Ok v /\
      (forall x' y', x' <> x \/ y' <> y -> get g' x' y' = get g x' y') /\
      shape g' = shape g /\
      cellsize g' = cellsize g /\ xllcorner g' = xllcorner g /\
      yllcorner g' = yllcorner g /\ data_cells g' = data_cells g /\
      no_data g' = no_data g.
Proof.
  intros T E g x y u v Hp Hu. rewrite (get_unpacked g x y Hp) in Hu.
  destruct (write_cell_defined g x y v) as [g' Hset]; [eauto|].
  exists g'. rewrite (set_at_unpacked g x y v Hp).
  split; [assumption|]. split; [|split; [|split]].
  - rewrite (get_unpacked g' x y Hp), (at_write_cell g x y v g' x y Hset).
    now rewrite !Z.eqb_refl.
  - intros x' y' Hne.
    rewrite (get_unpacked g' x' y' Hp), (get_unpacked g x' y' Hp).
    rewrite (at_write_cell g x y v g' x' y' Hset).
    destruct (Z.eqb_spec x' x), (Z.eqb_spec y' y); simpl; try reflexivity. lia.
  - now apply (write_cell_shape g x y v).
  - now apply (write_cell_metadata g x y v).
Qed.

Lemma write_then_read_witness :
  exists g',
    @set_at Z int_2d grid_5x5 2 3 8 = Ok g' /\
    @get Z int_2d g' 2 3 = Ok 8 /\
    (forall x' y', x' <> 2 \/ y' <> 3 ->
                   @get Z int_2d g' x' y' = @get Z int_2d grid_5x5 x' y') /\
    shape g' = shape grid_5x5 /\
    cellsize g' = cellsize grid_5x5 /\ xllcorner g' = xllcorner grid_5x5 /\
    yllcorner g' = yllcorner grid_5x5 /\ data_cells g' = data_cells grid_5x5 /\
    no_data g' = no_data grid_5x5.
Proof. apply (write_then_read Z int_2d grid_5x5 2 3 0 8); reflexivity. Defined.

(** X7. On a rectangular grid of an element type whose vector is not
    packed, the coordinates [in_grid] accepts are exactly those at which
    a read through [operator()] finds a cell. *)
Theorem in_grid_guards_access :
  forall (T : Type) (E : Element T) (g : array2d T) (x y : Z),
    packed ctype_of = false ->
    rectangular g = true ->
    (in_grid g x y = Ok true <-> exists u, get g x y = Ok u).
Proof.
  intros T E g x y Hp Hrect. rewrite (get_unpacked g x y Hp). split.
  - intros Hin. apply in_grid_true in Hin as (w & Hw & Hx & Hy).
    apply (at_defined g x y (Z.to_nat w)); try lia.
    apply rectangular_rows; try assumption. unfold height in Hy. lia.
  - intros [u Hu]. apply at_value in Hu as (Hx & Hy & row & Hrow & Hcell).
    pose proof (lookup_lt_Some _ _ _ Hrow) as Hylt.
    pose proof (lookup_lt_Some _ _ _ Hcell) as Hxlt.
    destruct (width_defined g) as [w Hw]; [unfold height; lia|].
    pose proof (width_nonneg g w Hw) as Hw0.
    pose proof (rectangular_rows g w (Z.to_nat y) Hrect Hw Hylt) as Hlen.
    rewrite shape_lookup, Hrow in Hlen. simpl in Hlen. injection Hlen as Hlen.
    apply in_grid_true. exists w. split; [assumption|]. unfold height. lia.
Qed.

Lemma in_grid_guards_access_witness :
  in_grid grid_5x5 4 4 = Ok true <-> exists u, @get Z int_2d grid_5x5 4 4 = Ok u.
Proof. apply (in_grid_guards_access Z int_2d grid_5x5 4 4); reflexivity. Defined.

(** ** Neighbours *)

Section Neighbours.
Context {T : Type}.
Implicit Types (g : array2d T).

Lemma interior_grid_reads_width g x y :
  interior_grid g x y = Ok true -> exists w, width g = Ok w.
Proof.
  unfold interior_grid.
  destruct (negb (1 <=? x)); [discriminate|].
  destruct (negb (1 <=? y)); [discriminate|].
  destruct (width g) as [w|e]; [eauto|discriminate].
Qed.

End Neighbours.

(** X8. Around a coordinate that [interior_grid] accepts, the coordinate
    itself and its eight neighbours are all accepted by [in_grid]. *)
Theorem interior_neighbours_in_grid :
  forall (T : Type) (g : array2d T) (x y dx dy : Z),
    interior_grid g x y = Ok true ->
    -1 <= dx <= 1 -> -1 <= dy <= 1 ->
    in_grid g (x + dx) (y + dy) = Ok true.
Proof.
  intros T g x y dx dy Hint Hdx Hdy.
  destruct (interior_grid_reads_width g x y Hint) as [w Hw].
  apply (interior_grid_true g w x y Hw) in Hint.
  apply in_grid_true. exists w. split; [assumption|]. lia.
Qed.

Lemma interior_neighbours_in_grid_witness :
  in_grid grid_5x5 (3 + 1) (1 + -1) = Ok true.
Proof.
  apply (interior_neighbours_in_grid Z grid_5x5 3 1 1 (-1)); [reflexivity|lia|lia].
Defined.

(** X9. For a coordinate in the grid, [edge_grid] is true exactly when
    one of its eight neighbours is rejected by [in_grid]. *)
Theorem edge_has_neighbour_outside :
  forall (T : Type) (g : array2d T) (x y : Z),
    in_grid g x y = Ok true ->
    (edge_grid g x y = Ok true <->
     exists dx dy, -1 <= dx <= 1 /\ -1 <= dy <= 1 /\
                   in_grid g (x + dx) (y + dy) = Ok false).
Proof.
  intros T g x y Hin. apply in_grid_true in Hin as (w & Hw & Hx & Hy).
  rewrite (edge_grid_true g w x y Hw). split.
  - intros Hedge.
    assert (Hval : forall dx dy,
              in_grid g (x + dx) (y + dy) =
                Ok ((0 <=? x + dx) && (0 <=? y + dy) && (x + dx <? w)
                    && (y + dy <? height g)))
      by (intros dx dy; now apply in_grid_value).
    destruct Hedge as [Hedge|[Hedge|[Hedge|Hedge]]].
    + exists (-1), 0. split; [lia|]. split; [lia|]. rewrite Hval. f_equal.
      destruct (Z.leb_spec 0 (x + -1)); [lia|]. reflexivity.
    + exists 0, (-1). split; [lia|]. split; [lia|]. rewrite Hval. f_equal.
      destruct (Z.leb_spec 0 (y + -1)); [lia|]. now rewrite andb_false_r.
    + exists 1, 0. split; [lia|]. split; [lia|]. rewrite Hval. f_equal.
      destruct (Z.ltb_spec (x + 1) w); [lia|]. now rewrite andb_false_r.
    + exists 0, 1. split; [lia|]. split; [lia|]. rewrite Hval. f_equal.
      destruct (Z.ltb_spec (y + 1) (height g)); [lia|]. now rewrite andb_false_r.
  - intros (dx & dy & Hdx & Hdy & Hout).
    rewrite (in_grid_value g w) in Hout by assumption. injection Hout as Hout.
    destruct (Z.leb_spec 0 (x + dx)), (Z.leb_spec 0 (y + dy)),
      (Z.ltb_spec (x + dx) w), (Z.ltb_spec (y + dy) (height g));
      simpl in Hout; try discriminate; lia.
Qed.

Lemma edge_has_neighbour_outside_witness :
  edge_grid grid_5x5 4 2 = Ok true <->
  exists dx dy, -1 <= dx <= 1 /\ -1 <= dy <= 1 /\
                in_grid grid_5x5 (4 + dx) (2 + dy) = Ok false.
Proof. apply (edge_has_neighbour_outside Z grid_5x5 4 2). reflexivity. Defined.

(** X10. On a grid without rows the three predicates answer only where
    [&&] or [||] settles the answer before [width()] is called: [in_grid]
    is false for a negative coordinate, [interior_grid] is false for a
    coordinate below 1, [edge_grid] is true for a coordinate equal to 0;
    at every other coordinate they read row 0, which is not there. *)
Theorem predicates_without_rows :
  forall (T : Type) (g : array2d T) (x y : Z),
    height g = 0 ->
    in_grid g x y =
      (if (x <? 0) || (y <? 0) then Ok false else Err UndefinedBehaviour) /\
    interior_grid g x y =
      (if (x <? 1) || (y <? 1) then Ok false else Err UndefinedBehaviour) /\
    edge_grid g x y =
      (if (x =? 0) || (y =? 0) then Ok true else Err UndefinedBehaviour).
Proof.
  intros T g x y Hrows. apply height_zero_data, width_nil in Hrows.
  unfold in_grid, interior_grid, edge_grid. rewrite Hrows. simpl.
  repeat split.
  - destruct (Z.leb_spec 0 x), (Z.ltb_spec x 0); try lia; simpl; [|reflexivity].
    destruct (Z.leb_spec 0 y), (Z.ltb_spec y 0); try lia; reflexivity.
  - destruct (Z.leb_spec 1 x), (Z.ltb_spec x 1); try lia; simpl; [|reflexivity].
    destruct (Z.leb_spec 1 y), (Z.ltb_spec y 1); try lia; reflexivity.
  - destruct (x =? 0); [reflexivity|]. destruct (y =? 0); reflexivity.
Qed.

Lemma predicates_without_rows_witness :
  in_grid (clear grid_5x5) (-1) 0 =
    (if (-1 <? 0) || (0 <? 0) then Ok false else Err UndefinedBehaviour) /\
  interior_grid (clear grid_5x5) (-1) 0 =
    (if (-1 <? 1) || (0 <? 1) then Ok false else Err UndefinedBehaviour) /\
  edge_grid (clear grid_5x5) (-1) 0 =
    (if (-1 =? 0) || (0 =? 0) then Ok true else Err UndefinedBehaviour).
Proof. apply (predicates_without_rows Z (clear grid_5x5) (-1) 0). reflexivity. Defined.

(** ** init on any grid *)

(** The partial-correctness rule for a loop that has run to its end. *)
Lemma for_ok_invariant {S : Type} (I : Z -> S -> Prop) (body : Z -> S -> result S)
    (n : nat) (i : Z) (s s' : S) :
  for_ n i body s = Ok s' ->
  I i s ->
  (forall k t t', i <= k < i + Z.of_nat n -> I k t -> body k t = Ok t' ->
                  I (k + 1) t') ->
  I (i + Z.of_nat n) s'.
Proof.
  revert i s. induction n as [|n IH]; intros i s Hrun Hinit Hstep.
  - simpl in Hrun. injection Hrun as <-. now rewrite Z.add_0_r.
  - simpl for_ in Hrun. destruct (body i s) as [t|e] eqn:Hbody; [|discriminate].
    replace (i + Z.of_nat (Datatypes.S n)) with (i + 1 + Z.of_nat n) by lia.
    apply (IH (i + 1) t Hrun).
    + apply (Hstep i s t); [lia|assumption|assumption].
    + intros k u u' Hk. apply Hstep. lia.
Qed.

Section InitAnyGrid.
Context {T : Type} {E : Element T}.
Implicit Types (g : array2d T) (v : T).

(** Whether a cell exists is a matter of the row lengths. *)
Lemma at_defined_iff g x y :
  (exists u, at_ g x y = Ok u) <->
  0 <= x /\ 0 <= y /\
  exists n, shape g !! Z.to_nat y = Some n /\ (Z.to_nat x < n)%nat.
Proof.
  split.
  - intros [u Hu]. apply at_value in Hu as (Hx & Hy & row & Hrow & Hcell).
    split; [assumption|]. split; [assumption|]. exists (length row). split.
    + now rewrite shape_lookup, Hrow.
    + eapply lookup_lt_Some; eassumption.
  - intros (Hx & Hy & n & Hn & Hlt). now apply (at_defined g x y n).
Qed.

Lemma at_defined_same_shape g g' x y :
  shape g' = shape g ->
  (exists u, at_ g' x y = Ok u) -> exists u, at_ g x y = Ok u.
Proof. intros Hs. rewrite !at_defined_iff, Hs. trivial. Qed.

(** Whether a grid is rectangular is a matter of the row lengths. *)
Lemma rectangular_same_shape g g' :
  shape g' = shape g -> rectangular g' = rectangular g.
Proof.
  unfold rectangular, shape. intros Hshape.
  destruct (data g') as [|r' rs'], (data g) as [|r rs]; try discriminate; [reflexivity|].
  rewrite !fmap_cons in Hshape. injection Hshape as Hr Hrs. rewrite Hr.
  clear - Hrs. revert rs Hrs. induction rs' as [|a rs' IH]; intros [|b rs] Hrs;
    try discriminate; [reflexivity|].
  rewrite !fmap_cons in Hrs. injection Hrs as Hab Hrs. simpl.
  rewrite Hab. f_equal. now apply IH.
Qed.

(** When no row is shorter than row 0 and the vector is not packed,
    [init] runs to its end. *)
Lemma init_when_rows_reach g v w :
  packed ctype_of = false ->
  width g = Ok w ->
  (forall n, n ∈ shape g -> (Z.to_nat w <= n)%nat) ->
  exists g', init v g = Ok g' /\ shape g' = shape g /\ same_metadata g' g /\
    (forall x y, 0 <= x < w -> 0 <= y < height g -> at_ g' x y = Ok v) /\
    (forall x y, ~ (0 <= x < w /\ 0 <= y < height g) -> at_ g' x y = at_ g x y).
Proof.
  intros Hp Hw Hreach. rewrite (init_unpacked g v Hp). rewrite Hw. simpl.
  pose proof (width_nonneg g w Hw) as Hw0.
  pose proof (height_nonneg g) as Hh0.
  set (I := fun (x : Z) (gx : array2d T) =>
              shape gx = shape g /\ same_metadata gx g /\
              (forall x' y', 0 <= x' < x -> 0 <= y' < height g ->
                             at_ gx x' y' = Ok v) /\
              (forall x' y', ~ (0 <= x' < x /\ 0 <= y' < height g) ->
                             at_ gx x' y' = at_ g x' y')).
  destruct (for_invariant I
              (fun x gx => for_ (Z.to_nat (height gx)) 0
                             (fun y gy => write_cell gy x y v) gx)
              (Z.to_nat w) 0 g) as (g' & Hrun & Hend).
  - split; [reflexivity|]. split; [repeat split|]. split; [intros; lia|reflexivity].
  - intros x gx Hx (Hshape & Hmeta & Hset & Hkept).
    set (J := fun (y : Z) (gy : array2d T) =>
                shape gy = shape g /\ same_metadata gy g /\
                (forall x' y',
                   (0 <= x' < x /\ 0 <= y' < height g) \/ (x' = x /\ 0 <= y' < y) ->
                   at_ gy x' y' = Ok v) /\
                (forall x' y',
                   ~ ((0 <= x' < x /\ 0 <= y' < height g) \/ (x' = x /\ 0 <= y' < y)) ->
                   at_ gy x' y' = at_ g x' y')).
    destruct (for_invariant J (fun y gy => write_cell gy x y v)
                (Z.to_nat (height gx)) 0 gx) as (gy & Hrun & Hend).
    + split; [assumption|]. split; [assumption|]. split.
      * intros x' y' [[Hx' Hy']|[_ Hy']]; [now apply Hset|lia].
      * intros x' y' Hnot. apply Hkept. tauto.
    + intros y gy Hy (Hs & Hm & Hdone & Hrest).
      rewrite (same_shape_height g gx Hshape) in Hy.
      destruct (write_cell_defined gy x y v) as [gy' Hwrite].
      { rewrite height_shape in Hy.
        destruct (lookup_lt_is_Some_2 (shape g) (Z.to_nat y)) as [n Hn]; [lia|].
        apply (at_defined gy x y n); try lia; [now rewrite Hs|].
        assert (Z.to_nat w <= n)%nat
          by (apply Hreach; eapply list_elem_of_lookup_2; eassumption).
        lia. }
      exists gy'. split; [assumption|].
      split; [rewrite (write_cell_shape _ _ _ _ _ Hwrite); assumption|].
      split.
      { destruct (write_cell_metadata _ _ _ _ _ Hwrite) as (? & ? & ? & ? & ?).
        destruct Hm as (? & ? & ? & ? & ?). repeat split; congruence. }
      split.
      * intros x' y' Hcond. rewrite (at_write_cell _ _ _ _ _ x' y' Hwrite).
        destruct (Z.eqb_spec x' x), (Z.eqb_spec y' y); simpl; try reflexivity;
          apply Hdone; lia.
      * intros x' y' Hnot. rewrite (at_write_cell _ _ _ _ _ x' y' Hwrite).
        destruct (Z.eqb_spec x' x), (Z.eqb_spec y' y); simpl;
          try (apply Hrest; lia). exfalso. apply Hnot. lia.
    + exists gy. split; [assumption|].
      destruct Hend as (Hs & Hm & Hdone & Hrest).
      rewrite (same_shape_height g gx Hshape) in Hdone, Hrest.
      split; [assumption|]. split; [assumption|]. split.
      * intros x' y' Hx' Hy'. apply Hdone. lia.
      * intros x' y' Hnot. apply Hrest. lia.
  - exists g'. split; [assumption|].
    destruct Hend as (Hs & Hm & Hdone & Hrest).
    split; [assumption|]. split; [assumption|]. split.
    + intros x y Hx Hy. apply Hdone; lia.
    + intros x y Hnot. apply Hrest. lia.
Qed.

(** When [init] has run to its end, no row was shorter than row 0. *)
Lemma init_ok_rows_reach g v g' :
  init v g = Ok g' ->
  exists w, width g = Ok w /\
            forall n, n ∈ shape g -> (Z.to_nat w <= n)%nat.
Proof.
  intros Hrun. pose proof (init_ok_unpacked g v g' Hrun) as Hp.
  rewrite (init_unpacked g v Hp) in Hrun. revert Hrun.
  destruct (width g) as [w|e] eqn:Hw; simpl; [|discriminate].
  intros Hrun. exists w. split; [reflexivity|].
  pose proof (width_nonneg g w Hw) as Hw0.
  pose proof (height_nonneg g) as Hh0.
  set (I := fun (x : Z) (gx : array2d T) =>
              shape gx = shape g /\
              forall x' y', 0 <= x' < x -> 0 <= y' < height g ->
                            exists u, at_ g x' y' = Ok u).
  assert (Hend : I (0 + Z.of_nat (Z.to_nat w)) g').
  { apply (for_ok_invariant I _ _ _ _ _ Hrun).
    - split; [reflexivity|]. intros; lia.
    - intros x gx gx' Hx (Hshape & Hleft) Hcol.
      set (J := fun (y : Z) (gy : array2d T) =>
                  shape gy = shape g /\
                  forall y', 0 <= y' < y -> exists u, at_ g x y' = Ok u).
      assert (HJ : J (0 + Z.of_nat (Z.to_nat (height gx))) gx').
      { apply (for_ok_invariant J _ _ _ _ _ Hcol).
        - split; [assumption|]. intros; lia.
        - intros y gy gy' Hy (Hs & Hcolumn) Hwrite. split.
          + rewrite (write_cell_shape _ _ _ _ _ Hwrite). assumption.
          + intros y' Hy'. destruct (Z.eq_dec y' y) as [->|Hne].
            * apply (at_defined_same_shape g gy x y Hs).
              now apply write_cell_data in Hwrite as [Hu _].
            * apply Hcolumn. lia. }
      destruct HJ as (Hs & Hcolumn).
      rewrite (same_shape_height g gx Hshape) in Hcolumn.
      split; [assumption|]. intros x' y' Hx' Hy'.
      destruct (Z.eq_dec x' x) as [->|Hne]; [apply Hcolumn; lia|apply Hleft; lia]. }
  destruct Hend as (_ & Hcells).
  intros n Hn. apply list_elem_of_lookup in Hn as [j Hj].
  destruct (Nat.le_gt_cases (Z.to_nat w) n) as [Hle|Hgt]; [assumption|exfalso].
  pose proof (lookup_lt_Some _ _ _ Hj) as Hjlt.
  destruct (Hcells (Z.of_nat n) (Z.of_nat j)) as [u Hu]; [lia|rewrite height_shape; lia|].
  assert (Hdef : exists u, at_ g (Z.of_nat n) (Z.of_nat j) = Ok u) by eauto.
  apply at_defined_iff in Hdef as (_ & _ & m & Hm & Hlt).
  rewrite !Nat2Z.id in *. rewrite Hj in Hm. injection Hm as <-. lia.
Qed.

Lemma init_shape g v g' : init v g = Ok g' -> shape g' = shape g.
Proof.
  intros Hrun. destruct (init_ok_rows_reach g v g' Hrun) as (w & Hw & Hreach).
  pose proof (init_ok_unpacked g v g' Hrun) as Hp.
  destruct (init_when_rows_reach g v w Hp Hw Hreach) as (g'' & Hrun' & Hshape & _).
  rewrite Hrun in Hrun'. now injection Hrun' as <-.
Qed.

End InitAnyGrid.

(** X11. For an element type whose vector is not packed, [init] runs
    to its end exactly on the grids that have a row and no row shorter
    than row 0; on every other grid it reads a row or a cell that is not
    there. *)
Theorem init_runs_iff :
  forall (T : Type) (E : Element T) (g : array2d T) (v : T),
    packed ctype_of = false ->
    ((exists g', init v g = Ok g') <->
     (exists w, width g = Ok w /\
                forall n, n ∈ shape g -> (Z.to_nat w <= n)%nat)).
Proof.
  intros T E g v Hp. split.
  - intros [g' Hrun]. now apply (init_ok_rows_reach g v g').
  - intros (w & Hw & Hreach).
    destruct (init_when_rows_reach g v w Hp Hw Hreach) as (g' & Hrun & _). eauto.
Qed.

Lemma init_runs_iff_witness :
  (exists g', @init Z int_2d 3 grid_1x1 = Ok g') <->
  (exists w, width grid_1x1 = Ok w /\
             forall n, n ∈ shape grid_1x1 -> (Z.to_nat w <= n)%nat).
Proof. apply (init_runs_iff Z int_2d grid_1x1 3). reflexivity. Defined.

(** X12. When [init(v)] has run, no row length and no metadata field has
    changed, every cell in a column below [width()] holds [v], and cells
    beyond [width()] in longer rows are what they were. *)
Theorem init_changes_cells_only :
  forall (T : Type) (E : Element T) (g g' : array2d T) (v : T) (w : Z),
    init v g = Ok g' -> width g = Ok w ->
    shape g' = shape g /\ same_metadata g' g /\
    width g' = Ok w /\ height g' = height g /\
    rectangular g' = rectangular g /\
    (forall x y, 0 <= x < w -> 0 <= y < height g -> at_ g' x y = Ok v) /\
    (forall x y, ~ (0 <= x < w /\ 0 <= y < height g) -> at_ g' x y = at_ g x y).
Proof.
  intros T E g g' v w Hrun Hw.
  destruct (init_ok_rows_reach g v g' Hrun) as (w' & Hw' & Hreach).
  rewrite Hw in Hw'. injection Hw' as <-.
  pose proof (init_ok_unpacked g v g' Hrun) as Hp.
  destruct (init_when_rows_reach g v w Hp Hw Hreach)
    as (g'' & Hrun' & Hshape & Hmeta & Hset & Hkept).
  rewrite Hrun in Hrun'. injection Hrun' as <-.
  split; [assumption|]. split; [assumption|].
  split; [now rewrite (same_shape_width g g' Hshape)|].
  split; [now apply same_shape_height|].
  split; [|split; assumption].
  now apply rectangular_same_shape.
Qed.

Lemma init_changes_cells_only_witness :
  exists g',
    @init Z int_2d 9 grid_5x5 = Ok g' /\
    shape g' = shape grid_5x5 /\ same_metadata g' grid_5x5 /\
    width g' = Ok 5 /\ height g' = height grid_5x5 /\
    rectangular g' = rectangular grid_5x5 /\
    (forall x y, 0 <= x < 5 -> 0 <= y < height grid_5x5 -> at_ g' x y = Ok 9) /\
    (forall x y, ~ (0 <= x < 5 /\ 0 <= y < height grid_5x5) ->
                 at_ g' x y = at_ grid_5x5 x y).
Proof.
  assert (Hrun : @init Z int_2d 9 grid_5x5 = Ok (@filled Z int_2d 5 5 9))
    by (vm_compute; reflexivity).
  exists (@filled Z int_2d 5 5 9). split; [exact Hrun|].
  apply (init_changes_cells_only Z int_2d grid_5x5 _ 9 5 Hrun). reflexivity.
Defined.

(** ** The grids the interface builds *)

Lemma int_sized_of_built (T : Type) (E : Element T) (g : array2d T) :
  built T E g -> int_sized g = true.
Proof.
  intros Hbuilt.
  induction Hbuilt as
    [T E
    |T E g g' w h _ IH [_ Hw] [_ Hh] Hres
    |T E g _ IH
    |T E g g' x y v _ IH Hset
    |T E g g' v _ IH Hrun
    |T U ET EU conv S D D' _ _ _ IHD Hcopy
    |T E g c x y d n _ IH].
  - apply int_sized_new.
  - now apply (int_sized_resize w h g g').
  - apply int_sized_clear.
  - now rewrite (int_sized_set_at g x y v g' Hset).
  - now rewrite (int_sized_same_shape g g' (init_shape g v g' Hrun)).
  - now apply (int_sized_copyprops conv S D D').
  - exact IH.
Qed.

Lemma built_grid_1x1 : built Z int_2d grid_1x1.
Proof.
  apply (built_set_at Z int_2d (@filled Z int_2d 1 1 0) grid_1x1 0 0 7);
    [|reflexivity].
  apply (built_resize Z int_2d (@array2d_new Z int_2d) (@filled Z int_2d 1 1 0) 1 1);
    [apply built_new | unfold is_int, INT_MAX; lia | unfold is_int, INT_MAX; lia
    | reflexivity].
Qed.

(** X13. Every grid made by the public members (the constructors,
    [resize] with [int] arguments, [clear], writes through [operator()],
    [init], [copyprops], assignments to the metadata fields) has a
    [height()], a [width()] and row lengths that fit an [int]. *)
Theorem built_int_sized :
  forall (T : Type) (E : Element T) (g : array2d T),
    built T E g ->
    int_sized g = true /\
    height g <= INT_MAX /\
    (forall w, width g = Ok w -> w <= INT_MAX).
Proof.
  intros T E g Hbuilt. pose proof (int_sized_of_built T E g Hbuilt) as Hsized.
  split; [assumption|]. split.
  - apply int_sized_spec in Hsized. tauto.
  - intros w. now apply int_sized_width.
Qed.

Lemma built_int_sized_witness :
  int_sized grid_1x1 = true /\
  height grid_1x1 <= INT_MAX /\
  (forall w, width grid_1x1 = Ok w -> w <= INT_MAX).
Proof. apply (built_int_sized Z int_2d grid_1x1). exact built_grid_1x1. Defined.

(** ** More on operator== *)

Section EqualityUses.
Context {T : Type} {E : Element T}.
Implicit Types (A B : array2d T).

Lemma rectangular_at_in_range A w x y a :
  rectangular A = true -> width A = Ok w -> at_ A x y = Ok a ->
  0 <= x < w /\ 0 <= y < height A.
Proof.
  intros Hrect Hw Ha. apply at_value in Ha as (Hx & Hy & row & Hrow & Hcell).
  pose proof (lookup_lt_Some _ _ _ Hrow) as Hylt.
  pose proof (lookup_lt_Some _ _ _ Hcell) as Hxlt.
  pose proof (width_nonneg A w Hw) as Hw0.
  pose proof (rectangular_rows A w (Z.to_nat y) Hrect Hw Hylt) as Hlen.
  rewrite shape_lookup, Hrow in Hlen. simpl in Hlen. injection Hlen as Hlen.
  unfold height. lia.
Qed.

End EqualityUses.

(** X14. For two rectangular grids that both have rows, of an element
    type whose vector is not packed, [==] answers, and answers true
    exactly when the widths agree, the heights agree and at no in-grid
    coordinate [operator!=] tells the two cells apart. *)
Theorem array2d_eq_decides :
  forall (T : Type) (E : Element T) (A B : array2d T),
    packed ctype_of = false ->
    rectangular A = true -> rectangular B = true ->
    0 < height A -> 0 < height B ->
    exists r, array2d_eq A B = Ok r /\
      (r = true <->
       width A = width B /\ height A = height B /\
       forall x y, in_grid A x y = Ok true ->
         exists a b, get A x y = Ok a /\ get B x y = Ok b /\ ne a b = false).
Proof.
  intros T E A B Hp HrA HrB HhA HhB.
  destruct (width_defined A HhA) as [wa HwA].
  destruct (width_defined B HhB) as [wb HwB].
  destruct (array2d_eq_rectangular A B wa wb Hp HrA HrB HwA HwB) as (r & Hr & Hiff).
  exists r. split; [assumption|]. rewrite Hiff, HwA, HwB. split.
  - intros (-> & Hh & Hcells). split; [reflexivity|]. split; [assumption|].
    intros x y Hin. apply in_grid_true in Hin as (w & Hw & Hx & Hy).
    rewrite HwA in Hw. injection Hw as <-.
    rewrite !get_unpacked by assumption. now apply Hcells.
  - intros (Hw & Hh & Hcells). injection Hw as ->. split; [reflexivity|].
    split; [assumption|]. intros x y Hx Hy.
    rewrite <- (get_unpacked A x y Hp), <- (get_unpacked B x y Hp).
    apply Hcells. apply in_grid_true. exists wb. auto.
Qed.

Lemma array2d_eq_decides_witness :
  exists r, @array2d_eq Z int_2d grid_5x5 grid_1x1 = Ok r /\
    (r = true <->
     width grid_5x5 = width grid_1x1 /\ height grid_5x5 = height grid_1x1 /\
     forall x y, in_grid grid_5x5 x y = Ok true ->
       exists a b, @get Z int_2d grid_5x5 x y = Ok a /\
                   @get Z int_2d grid_1x1 x y = Ok b /\
                   @ne Z int_2d a b = false).
Proof.
  apply (array2d_eq_decides Z int_2d grid_5x5 grid_1x1);
    [reflexivity | reflexivity | reflexivity
    | vm_compute; reflexivity | vm_compute; reflexivity].
Defined.

(** X15. The metadata fields play no part in [==]: whatever they hold on
    either side, the answer is that for the cells alone. *)
Theorem array2d_eq_ignores_metadata :
  forall (T : Type) (E : Element T) (A B : array2d T)
         (c x y c' x' y' : float) (d d' : Z) (n n' : T),
    array2d_eq (mk_array2d (data A) c x y d n) (mk_array2d (data B) c' x' y' d' n')
    = array2d_eq A B.
Proof. intros. now apply array2d_eq_reads_data. Qed.

(** X16. After [init(v)] on two rectangular grids of one width and one
    height, of an element type whose vector is not packed, [==] answers
    true, provided [v != v] is false. *)
Theorem array2d_eq_after_init :
  forall (T : Type) (E : Element T) (A B : array2d T) (v : T) (w : Z),
    packed ctype_of = false ->
    rectangular A = true -> rectangular B = true ->
    width A = Ok w -> width B = Ok w -> height A = height B ->
    ne v v = false ->
    exists A' B', init v A = Ok A' /\ init v B = Ok B' /\
                  array2d_eq A' B' = Ok true.
Proof.
  intros T E A B v w Hp HrA HrB HwA HwB Hh Hvv.
  destruct (init_correct A v w Hp HrA HwA) as (A' & HA' & HsA & _ & _ & HcA).
  destruct (init_correct B v w Hp HrB HwB) as (B' & HB' & HsB & _ & _ & HcB).
  exists A', B'. split; [assumption|]. split; [assumption|].
  destruct (array2d_eq_rectangular A' B' w w Hp) as (r & Hr & Hiff).
  - now rewrite (rectangular_same_shape A A' HsA).
  - now rewrite (rectangular_same_shape B B' HsB).
  - now rewrite (same_shape_width A A' HsA).
  - now rewrite (same_shape_width B B' HsB).
  - rewrite Hr. f_equal. apply Hiff. split; [reflexivity|].
    rewrite (same_shape_height A A' HsA), (same_shape_height B B' HsB).
    split; [assumption|]. intros x y Hx Hy. exists v, v.
    split; [now apply HcA|]. split; [apply HcB; lia|assumption].
Qed.

Lemma array2d_eq_after_init_witness :
  exists A' B',
    @init Z int_2d 4 grid_5x5 = Ok A' /\
    @init Z int_2d 4 (@filled Z int_2d 5 5 1) = Ok B' /\
    @array2d_eq Z int_2d A' B' = Ok true.
Proof.
  apply (array2d_eq_after_init Z int_2d grid_5x5 (@filled Z int_2d 5 5 1) 4 5);
    reflexivity.
Defined.

(** X17. A rectangular grid with rows, of an element type whose vector
    is not packed, is equal to itself exactly when no cell differs from
    itself under [operator!=] (as a NaN does). *)
Theorem array2d_eq_self :
  forall (T : Type) (E : Element T) (A : array2d T),
    packed ctype_of = false ->
    rectangular A = true -> 0 < height A ->
    (array2d_eq A A = Ok true <->
     forall x y a, get A x y = Ok a -> ne a a = false).
Proof.
  intros T E A Hp Hrect Hrows.
  destruct (width_defined A Hrows) as [w Hw].
  destruct (array2d_eq_rectangular A A w w Hp Hrect Hrect Hw Hw) as (r & Hr & Hiff).
  rewrite Hr. split.
  - intros [= ->]. destruct Hiff as [Hcells _].
    destruct (Hcells eq_refl) as (_ & _ & Hall).
    intros x y a Ha. rewrite (get_unpacked A x y Hp) in Ha.
    destruct (rectangular_at_in_range A w x y a Hrect Hw Ha) as [Hx Hy].
    destruct (Hall x y Hx Hy) as (a1 & a2 & Ha1 & Ha2 & Hne). congruence.
  - intros Hself. f_equal. apply Hiff. split; [reflexivity|]. split; [reflexivity|].
    intros x y Hx Hy.
    destruct (at_defined A x y (Z.to_nat w)) as [a Ha]; try lia.
    { pose proof (width_nonneg A w Hw).
      apply rectangular_rows; try assumption. unfold height in Hy. lia. }
    exists a, a. split; [assumption|]. split; [assumption|].
    apply (Hself x y). now rewrite (get_unpacked A x y Hp).
Qed.

Lemma array2d_eq_self_witness :
  @array2d_eq Z int_2d grid_5x5 grid_5x5 = Ok true <->
  forall x y a, @get Z int_2d grid_5x5 x y = Ok a -> @ne Z int_2d a a = false.
Proof.
  apply (array2d_eq_self Z int_2d grid_5x5);
    [reflexivity | reflexivity | vm_compute; reflexivity].
Defined.

(** A grid of [double]s holding a NaN is not equal to itself. *)
Lemma array2d_eq_nan :
  @array2d_eq float double_2d (@filled float double_2d 1 1 nan)
    (@filled float double_2d 1 1 nan) = Ok false.
Proof. vm_compute. reflexivity. Qed.

(** X18. For an element type whose vector is not packed, a write of a
    value that [operator!=] tells apart from the cell's content makes a
    rectangular grid unequal to what it was. *)
Theorem array2d_eq_sees_write :
  forall (T : Type) (E : Element T) (A : array2d T) (x y : Z) (a v : T),
    packed ctype_of = false ->
    rectangular A = true -> get A x y = Ok a -> ne v a = true ->
    exists A', set_at A x y v = Ok A' /\ array2d_eq A' A = Ok false.
Proof.
  intros T E A x y a v Hp Hrect Ha Hne. rewrite (get_unpacked A x y Hp) in Ha.
  destruct (write_cell_defined A x y v) as [A' Hset]; [eauto|].
  exists A'. rewrite (set_at_unpacked A x y v Hp). split; [assumption|].
  pose proof (write_cell_shape A x y v A' Hset) as Hshape.
  assert (Hrows : 0 < height A).
  { apply at_value in Ha as (_ & _ & row & Hrow & _).
    apply lookup_lt_Some in Hrow. unfold height. lia. }
  destruct (width_defined A Hrows) as [w Hw].
  destruct (array2d_eq_rectangular A' A w w Hp) as (r & Hr & Hiff); try assumption.
  - now rewrite (rectangular_same_shape A A' Hshape).
  - now rewrite (same_shape_width A A' Hshape).
  - rewrite Hr. f_equal. destruct r; [exfalso|reflexivity].
    destruct Hiff as [Hcells _]. destruct (Hcells eq_refl) as (_ & _ & Hall).
    destruct (rectangular_at_in_range A w x y a Hrect Hw Ha) as [Hx Hy].
    rewrite <- (same_shape_height A A' Hshape) in Hy.
    destruct (Hall x y Hx Hy) as (a1 & a2 & Ha1 & Ha2 & Hsame).
    rewrite (at_write_cell A x y v A' x y Hset), !Z.eqb_refl in Ha1. simpl in Ha1.
    congruence.
Qed.

Lemma array2d_eq_sees_write_witness :
  exists A', @set_at Z int_2d grid_5x5 1 2 6 = Ok A' /\
             @array2d_eq Z int_2d A' grid_5x5 = Ok false.
Proof.
  apply (array2d_eq_sees_write Z int_2d grid_5x5 1 2 0 6); reflexivity.
Defined.

(** ** More on estimated_output_size and the converting constructor *)

Lemma long_mul_overflow a b :
  LONG_MAX < a * b -> long_mul a b = Err UndefinedBehaviour.
Proof.
  intros Hover. unfold long_mul.
  destruct (Z.leb_spec (a * b) LONG_MAX); [lia|]. now rewrite andb_false_r.
Qed.

(** X19. For an element type with a specialisation and a grid with
    rows, [estimated_output_size()] is [multiplier*width()*height()] as
    long as that product fits a [long], and a signed overflow beyond. *)
Theorem estimated_output_size_value :
  forall (T : Type) (E : Element T) (g : array2d T) (m w : Z),
    multiplier ctype_of = Some m -> width g = Ok w ->
    estimated_output_size g =
      if m * w * height g <=? LONG_MAX then Ok (m * w * height g)
      else Err UndefinedBehaviour.
Proof.
  intros T E g m w Hm Hw.
  destruct (Z.leb_spec (m * w * height g) LONG_MAX) as [Hfit|Hover].
  - now apply estimated_output_size_product.
  - unfold estimated_output_size. rewrite Hm, Hw. simpl.
    pose proof (width_nonneg g w Hw) as Hw0.
    pose proof (width_gives_rows g w Hw) as Hh.
    assert (Hm0 : 2 <= m) by (destruct (multiplier_cases _ _ Hm) as [->|[->| ->]]; lia).
    destruct (Z.leb_spec (m * w) LONG_MAX) as [Hmw|Hmw].
    + rewrite long_mul_ok by (unfold LONG_MAX in *; nia). simpl.
      now apply long_mul_overflow.
    + now rewrite long_mul_overflow.
Qed.

Lemma estimated_output_size_value_witness :
  @estimated_output_size _ bool_2d (@filled bool bool_2d 3 4 true) =
    if 2 * 3 * height (@filled bool bool_2d 3 4 true) <=? LONG_MAX
    then Ok (2 * 3 * height (@filled bool bool_2d 3 4 true))
    else Err UndefinedBehaviour.
Proof.
  apply (estimated_output_size_value bool bool_2d (@filled bool bool_2d 3 4 true) 2 3);
    reflexivity.
Defined.

(** X20. The converting constructor copies no cell: from a source with
    rows and int-sized dimensions whose [no_data] has a defined
    conversion it makes a rectangular grid of the source's width and
    height whose every cell is a value-initialised [T], whatever the
    source holds. *)
Theorem array2d_from_fresh_cells :
  forall (T U : Type) (ET : Element T) (conv : U -> option T)
         (S : array2d U) (n : T),
    0 < height S -> int_sized S = true -> conv (no_data S) = Some n ->
    exists D',
      outcome (array2d_from conv S) = Ok D' /\
      rectangular D' = true /\
      width D' = width S /\ height D' = height S /\
      forall x y, in_grid D' x y = Ok true -> at_ D' x y = Ok value_init.
Proof.
  intros T U ET conv S n Hrows Hsized Hn.
  destruct (width_defined S Hrows) as [w Hw].
  pose proof (int_sized_width S w Hsized Hw) as Hwmax.
  assert (Hhmax : height S <= INT_MAX) by (apply int_sized_spec in Hsized; tauto).
  pose proof (width_nonneg S w Hw) as Hw0.
  unfold array2d_from.
  rewrite (copyprops_outcome conv S array2d_new w n Hn Hw Hwmax Hhmax).
  set (D0 := mk_array2d (data array2d_new) _ _ _ _ _).
  destruct (resize_empty_dimensions w (height S) D0) as (D' & Hres & Hwd & Hht & Hrect);
    [reflexivity|assumption|assumption|].
  exists D'. split; [assumption|]. split; [assumption|].
  split; [congruence|]. split; [assumption|].
  intros x y Hin. apply in_grid_true in Hin as (w' & Hw' & Hx & Hy).
  rewrite Hwd in Hw'. injection Hw' as <-. rewrite Hht in Hy.
  assert (HD0 : height D0 = 0) by reflexivity.
  rewrite (resize_new_rows w (height S) D0 D' x y Hres) by lia.
  destruct (Z.leb_spec 0 x); [|lia]. destruct (Z.ltb_spec x w); [|lia]. reflexivity.
Qed.

Lemma array2d_from_fresh_cells_witness :
  exists D',
    outcome (@array2d_from Z Z char_2d (convert c_int c_signed_char) grid_5x5)
      = Ok D' /\
    rectangular D' = true /\
    width D' = width grid_5x5 /\ height D' = height grid_5x5 /\
    forall x y, in_grid D' x y = Ok true -> at_ D' x y = Ok 0.
Proof.
  apply (array2d_from_fresh_cells Z Z char_2d (convert c_int c_signed_char)
           grid_5x5 (-1));
    [vm_compute; reflexivity | reflexivity | reflexivity].
Defined.

(** ** Grids without rows, and sources the interface builds *)



Lemma resize_pair {T : Type} {E : Element T} (w h : Z) (g : array2d T) :
  resize w h g = ([approx_ram w h], outcome (resize w h g)).
Proof. reflexivity. Qed.

(** X22. From a source with rows that the public members have built and
    whose [no_data] has a defined conversion to the destination's element
    type, [copyprops] succeeds on every destination: it prints one figure,
    and the destination gets the source's [height()], the source's
    metadata with [no_data] converted, and int-sized dimensions if it had
    such. *)
Theorem copyprops_from_built :
  forall (u t : ctype) (S : array2d (carrier u)) (D : array2d (carrier t))
         (n : carrier t),
    built (carrier u) (elt u) S -> 0 < height S ->
    convert u t (no_data S) = Some n ->
    exists mb D',
      @copyprops _ _ (elt t) (convert u t) S D = ([mb], Ok D') /\
      height D' = height S /\
      cellsize D' = cellsize S /\ xllcorner D' = xllcorner S /\
      yllcorner D' = yllcorner S /\ data_cells D' = data_cells S /\
      no_data D' = n /\
      (int_sized D = true -> int_sized D' = true).
Proof.
  intros u t S D n Hbuilt Hrows Hn.
  pose proof (int_sized_of_built _ _ S Hbuilt) as Hsized.
  destruct (width_defined S Hrows) as [w Hw].
  pose proof (int_sized_width S w Hsized Hw) as Hwmax.
  assert (Hhmax : height S <= INT_MAX) by (apply int_sized_spec in Hsized; tauto).
  destruct (@copyprops_fields _ _ (elt t) (convert u t) S D w n Hn Hw Hwmax Hhmax)
    as (D' & Hout & Hc & Hx & Hy & Hd & Hnd & Hh & _).
  exists (@approx_ram _ (elt t) w (height S)), D'. split.
  - rewrite (@copyprops_outcome _ _ (elt t) (convert u t) S D w n Hn Hw Hwmax Hhmax) in *.
    rewrite resize_pair. now rewrite Hout.
  - repeat split; try assumption.
    intros HD. now apply (@int_sized_copyprops _ _ (elt t) (convert u t) S D D').
Qed.

Lemma copyprops_from_built_witness :
  exists mb D',
    @copyprops Z Z char_2d (convert c_int c_signed_char) grid_1x1
      (@array2d_new Z char_2d) = ([mb], Ok D') /\
    height D' = height grid_1x1 /\
    cellsize D' = cellsize grid_1x1 /\
    xllcorner D' = xllcorner grid_1x1 /\
    yllcorner D' = yllcorner grid_1x1 /\
    data_cells D' = data_cells grid_1x1 /\
    no_data D' = -1 /\
    (int_sized (@array2d_new Z char_2d) = true -> int_sized D' = true).
Proof.
  apply (copyprops_from_built c_int c_signed_char grid_1x1
           (@array2d_new Z char_2d) (-1));
    [exact built_grid_1x1 | vm_compute; reflexivity | reflexivity].
Defined.

(** ** init on a rectangular grid, and the members on a packed vector *)

(** X23. On a rectangular grid with rows, of an element type whose
    vector is not packed, [init(v)] runs to its end; the grid it leaves
    has the row lengths, the [width()], the [height()] and the metadata
    of the grid before, [in_grid] accepts the same coordinates, and every
    coordinate it accepts holds [v]. *)
Theorem init_fills_grid :
  forall (T : Type) (E : Element T) (g : array2d T) (v : T),
    packed ctype_of = false -> rectangular g = true -> 0 < height g ->
    exists g',
      init v g = Ok g' /\
      shape g' = shape g /\ same_metadata g' g /\
      width g' = width g /\ height g' = height g /\
      rectangular g' = true /\
      (forall x y, in_grid g' x y = in_grid g x y) /\
      (forall x y, in_grid g x y = Ok true ->
                   at_ g' x y = Ok v /\ get g' x y = Ok v).
Proof.
  intros T E g v Hp Hrect Hrows.
  destruct (width_defined g Hrows) as [w Hw].
  destruct (init_when_rows_reach g v w Hp Hw) as (g' & Hrun & Hshape & Hmeta & Hset & _).
  { intros n Hn. apply list_elem_of_lookup in Hn as [j Hj].
    pose proof (lookup_lt_Some _ _ _ Hj) as Hlt.
    unfold shape in Hlt. rewrite length_fmap in Hlt.
    rewrite (rectangular_rows g w j Hrect Hw Hlt) in Hj. injection Hj as <-. lia. }
  pose proof (same_shape_width g g' Hshape) as Hwd.
  pose proof (same_shape_height g g' Hshape) as Hht.
  exists g'. split; [assumption|]. split; [assumption|]. split; [assumption|].
  split; [assumption|]. split; [assumption|].
  split; [now rewrite (rectangular_same_shape g g' Hshape)|]. split.
  - intros x y. unfold in_grid. now rewrite Hwd, Hht.
  - intros x y Hin. apply in_grid_true in Hin as (w' & Hw' & Hx & Hy).
    rewrite Hw in Hw'. injection Hw' as <-.
    rewrite (get_unpacked g' x y Hp). split; now apply Hset.
Qed.

Lemma init_fills_grid_witness :
  exists g',
    @init Z int_2d 9 grid_5x5 = Ok g' /\
    shape g' = shape grid_5x5 /\ same_metadata g' grid_5x5 /\
    width g' = width grid_5x5 /\ height g' = height grid_5x5 /\
    rectangular g' = true /\
    (forall x y, in_grid g' x y = in_grid grid_5x5 x y) /\
    (forall x y, in_grid grid_5x5 x y = Ok true ->
                 at_ g' x y = Ok 9 /\ @get Z int_2d g' x y = Ok 9).
Proof.
  apply (init_fills_grid Z int_2d grid_5x5 9);
    [reflexivity | reflexivity | vm_compute; reflexivity].
Defined.

Lemma get_packed_undefined {T : Type} {E : Element T} (g : array2d T) (x y : Z) :
  packed ctype_of = true -> get g x y = Err UndefinedBehaviour.
Proof.
  intros Hp. unfold get, at_. rewrite Hp.
  destruct ((x <? 0) || (y <? 0)); [reflexivity|].
  destruct (data g !! Z.to_nat y) as [row|]; [|reflexivity].
  destruct (row !! Z.to_nat x); reflexivity.
Qed.

(** X24. For an element type with a packed vector ([bool]) no write
    through [operator()] and no [init] succeeds, since neither compiles;
    no read through the const [operator()] gives a value, since the
    reference it returns is to a temporary; and [==] between grids of one
    positive width and one height is undefined at the first cell it
    compares. *)
Theorem members_on_packed_vector :
  forall (T : Type) (E : Element T) (A B : array2d T) (x y w : Z) (v : T),
    packed ctype_of = true ->
    set_at A x y v = Err IllFormed /\
    (forall A', init v A <> Ok A') /\
    get A x y = Err UndefinedBehaviour /\
    (width A = Ok w -> width B = Ok w -> height A = height B -> 0 < w ->
     array2d_eq A B = Err UndefinedBehaviour).
Proof.
  intros T E A B x y w v Hp.
  split; [now apply set_at_packed|].
  split; [intros A'; now apply init_packed|].
  split; [now apply get_packed_undefined|].
  intros HwA HwB Hh Hw. unfold array2d_eq. rewrite HwA, HwB. simpl.
  rewrite Z.eqb_refl, Hh, Z.eqb_refl. simpl.
  pose proof (width_gives_rows B w HwB) as HhB.
  destruct (Z.to_nat w) as [|n] eqn:Hn; [lia|].
  destruct (Z.to_nat (height B)) as [|m] eqn:Hm; [lia|].
  simpl. now rewrite (get_packed_undefined A 0 0 Hp).
Qed.

Lemma members_on_packed_vector_witness :
  @set_at bool bool_2d (@filled bool bool_2d 2 2 false) 0 0 true = Err IllFormed /\
  (forall A', @init bool bool_2d true (@filled bool bool_2d 2 2 false) <> Ok A') /\
  @get bool bool_2d (@filled bool bool_2d 2 2 false) 0 0 = Err UndefinedBehaviour /\
  (width (@filled bool bool_2d 2 2 false) = Ok 2 ->
   width (@filled bool bool_2d 2 2 false) = Ok 2 ->
   height (@filled bool bool_2d 2 2 false) = height (@filled bool bool_2d 2 2 false) ->
   0 < 2 ->
   @array2d_eq bool bool_2d (@filled bool bool_2d 2 2 false)
     (@filled bool bool_2d 2 2 false) = Err UndefinedBehaviour).
Proof.
  apply (members_on_packed_vector bool bool_2d (@filled bool bool_2d 2 2 false)
           (@filled bool bool_2d 2 2 false) 0 0 2 true).
  reflexivity.
Defined.
